(** * nomad-driver-systemd-nspawn: unit rendering and machine creation

    A shallow embedding of the [systemd] package of the driver:
    - [systemd/template.go]: the [nspawnTemplate] text/template and the
      [join] helper registered in [funcMaps];
    - [systemd/driver.go]: the [TaskConfig] record;
    - [systemd/machine.go]: [CreateMachine] and the machine state constants.

    Go strings are byte strings, modelled as [string]; slices are lists (a nil
    slice is the empty list); [map[string]string] is a [gmap string string]
    (a nil map is the empty map); [uint32] is [N] and [int] is [Z]. *)

From Stdlib Require Import ZArith NArith Ascii DecimalString DecimalPos DecimalZ.
From stdpp Require Import base gmap strings list fin_maps sorting.

Local Open Scope Z_scope.

(** ** Strings *)

(** The line feed that ends every template line. *)
Definition nl : string := String "010"%char "".

(** [strings.Join(elems, sep)]. *)
Fixpoint join (elems : list string) (sep : string) : string :=
  match elems with
  | [] => ""
  | x :: rest =>
      match rest with
      | [] => x
      | _ :: _ => x +:+ sep +:+ join rest sep
      end
  end.

(** [strings.Replace(s, "/", "_", -1)]: the old text is the single byte
    [0x2F], so replacing every occurrence is a byte-wise map. *)
Definition replaceByte (c : ascii) : ascii :=
  if Ascii.eqb c "/"%char then "_"%char else c.

Fixpoint replaceSlash (s : string) : string :=
  match s with
  | EmptyString => EmptyString
  | String c s' => String (replaceByte c) (replaceSlash s')
  end.

(** How text/template prints an unsigned and a signed integer (through
    [fmt.Fprint]): decimal digits, a leading [-] when negative, and [0] for
    zero. *)
Definition formatUint (n : N) : string := NilZero.string_of_uint (N.to_uint n).
Definition formatInt (z : Z) : string := NilZero.string_of_int (Z.to_int z).

(** ** driver.go: TaskConfig *)

Record TaskConfig := {
  Image : string;
  (* Exec section *)
  Boot : bool;
  Ephemeral : bool;
  ProcessTwo : bool;
  Parameters : list string;
  Environment : gmap string string;
  User : string;
  WorkingDirectory : string;
  PivotRoot : string;
  Capability : list string;
  DropCapability : list string;
  NoNewPrivileges : bool;
  KillSignal : N;                       (* uint32 *)
  Personality : string;
  MachineID : string;
  PrivateUsers : string;
  NotifyReady : bool;
  SystemCallFilter : list string;
  LimitCPU : string;
  LimitFSIZE : string;
  LimitDATA : string;
  LimitSTACK : string;
  LimitCORE : string;
  LimitRSS : string;
  LimitNOFILE : string;
  LimitAS : string;
  LimitNPROC : string;
  LimitMEMLOCK : string;
  LimitLOCKS : string;
  LimitSIGPENDING : string;
  LimitMSGQUEUE : string;
  LimitNICE : string;
  LimitRTPRIO : string;
  LimitRTTIME : string;
  OOMScoreAdjust : Z;                   (* int *)
  CPUAffinity : list string;
  Hostname : string;
  ResolvConf : string;
  Timezone : string;
  LinkJournal : string;
  (* Files section *)
  ReadOnly : bool;
  Volatile : string;
  Bind : list string;
  BindReadOnly : list string;
  TemporaryFileSystem : list string;
  Inaccessible : list string;
  Overlay : list (list string);
  OverlayReadOnly : list (list string);
  PrivateUsersChown : bool;
  (* Network section *)
  Private : bool;
  VirtualEthernet : bool;
  VirtualEthernetExtra : list string;
  Interface : list string;
  MACVLAN : list string;
  IPVLAN : list string;
  Bridge : string;
  Zone : string;
  Port : list string
}.

(** The Go zero value [TaskConfig{}]. *)
Definition zeroTaskConfig : TaskConfig := {|
  Image := "";
  Boot := false; Ephemeral := false; ProcessTwo := false;
  Parameters := []; Environment := ∅;
  User := ""; WorkingDirectory := ""; PivotRoot := "";
  Capability := []; DropCapability := []; NoNewPrivileges := false;
  KillSignal := 0%N; Personality := ""; MachineID := ""; PrivateUsers := "";
  NotifyReady := false; SystemCallFilter := [];
  LimitCPU := ""; LimitFSIZE := ""; LimitDATA := ""; LimitSTACK := "";
  LimitCORE := ""; LimitRSS := ""; LimitNOFILE := ""; LimitAS := "";
  LimitNPROC := ""; LimitMEMLOCK := ""; LimitLOCKS := "";
  LimitSIGPENDING := ""; LimitMSGQUEUE := ""; LimitNICE := "";
  LimitRTPRIO := ""; LimitRTTIME := "";
  OOMScoreAdjust := 0; CPUAffinity := [];
  Hostname := ""; ResolvConf := ""; Timezone := ""; LinkJournal := "";
  ReadOnly := false; Volatile := "";
  Bind := []; BindReadOnly := []; TemporaryFileSystem := [];
  Inaccessible := []; Overlay := []; OverlayReadOnly := [];
  PrivateUsersChown := false;
  Private := false; VirtualEthernet := false; VirtualEthernetExtra := [];
  Interface := []; MACVLAN := []; IPVLAN := [];
  Bridge := ""; Zone := ""; Port := []
|}.

(** ** template.go: nspawnTemplate *)

(** [{{if .X}}on{{else}}off{{end}}] *)
Definition onoff (b : bool) : string := if b then "on" else "off".

(** [{{- range $_, $v := .X }}<newline>Key={{$v}}{{- end }}]: the left trim
    markers eat the line feed before [range] and the one before [end], so
    each element contributes a line feed followed by its directive. *)
Definition rangeLines (key : string) (vs : list string) : string :=
  foldr (fun v acc => nl +:+ key +:+ "=" +:+ v +:+ acc) "" vs.

(** [{{- range $_, $v := .X }}<newline>Key={{join $v ":"}}{{- end }}] *)
Definition rangeJoined (key : string) (vss : list (list string)) : string :=
  rangeLines key ((fun vs => join vs ":") <$> vss).

(** Map entries are visited by [range] in sorted key order: text/template
    collects the keys (in whatever order the runtime enumerates them) and
    sorts them, byte-wise for strings. *)
Definition entry_le (e1 e2 : string * string) : Prop := String.le e1.1 e2.1.

Global Instance entry_le_dec : RelDecision entry_le.
Proof. intros e1 e2. unfold entry_le. apply _. Defined.

Definition sortEntries (enum : list (string * string)) : list (string * string) :=
  merge_sort entry_le enum.

(** [{{- range $k, $v := .Environment }}<newline>Environment={{$k}}={{$v}}{{- end }}] *)
Definition rangeEnvironment (entries : list (string * string)) : string :=
  rangeLines "Environment" ((fun e => e.1 +:+ "=" +:+ e.2) <$> entries).

Definition execSection (enum : list (string * string)) (c : TaskConfig) : string :=
  "[Exec]" +:+ nl +:+
  "Boot=" +:+ onoff (Boot c) +:+ nl +:+
  "Ephemeral=" +:+ onoff (Ephemeral c) +:+ nl +:+
  "ProcessTwo=" +:+ onoff (ProcessTwo c) +:+ nl +:+
  "Parameters=" +:+ join (Parameters c) "," +:+
  rangeEnvironment (sortEntries enum) +:+ nl +:+
  "User=" +:+ User c +:+ nl +:+
  "WorkingDirectory=" +:+ WorkingDirectory c +:+ nl +:+
  "PivotRoot=" +:+ PivotRoot c +:+ nl +:+
  "Capability=" +:+ join (Capability c) " " +:+ nl +:+
  "DropCapability=" +:+ join (DropCapability c) " " +:+ nl +:+
  "NoNewPrivileges=" +:+ onoff (NoNewPrivileges c) +:+ nl +:+
  "KillSignal=" +:+ formatUint (KillSignal c) +:+ nl +:+
  "Personality=" +:+ Personality c +:+ nl +:+
  "MachineID=" +:+ MachineID c +:+ nl +:+
  "PrivateUsers=" +:+ PrivateUsers c +:+ nl +:+
  "NotifyReady=" +:+ onoff (NotifyReady c) +:+ nl +:+
  "SystemCallFilter=" +:+ join (SystemCallFilter c) " " +:+ nl +:+
  "LimitCPU=" +:+ LimitCPU c +:+ nl +:+
  "LimitFSIZE=" +:+ LimitFSIZE c +:+ nl +:+
  "LimitDATA=" +:+ LimitDATA c +:+ nl +:+
  "LimitSTACK=" +:+ LimitSTACK c +:+ nl +:+
  "LimitCORE=" +:+ LimitCORE c +:+ nl +:+
  "LimitRSS=" +:+ LimitRSS c +:+ nl +:+
  "LimitNOFILE=" +:+ LimitNOFILE c +:+ nl +:+
  "LimitAS=" +:+ LimitAS c +:+ nl +:+
  "LimitNPROC=" +:+ LimitNPROC c +:+ nl +:+
  "LimitMEMLOCK=" +:+ LimitMEMLOCK c +:+ nl +:+
  "LimitLOCKS=" +:+ LimitLOCKS c +:+ nl +:+
  "LimitSIGPENDING=" +:+ LimitSIGPENDING c +:+ nl +:+
  "LimitMSGQUEUE=" +:+ LimitMSGQUEUE c +:+ nl +:+
  "LimitNICE=" +:+ LimitNICE c +:+ nl +:+
  "LimitRTPRIO=" +:+ LimitRTPRIO c +:+ nl +:+
  "LimitRTTIME=" +:+ LimitRTTIME c +:+ nl +:+
  "OOMScoreAdjust=" +:+ formatInt (OOMScoreAdjust c) +:+ nl +:+
  "CPUAffinity=" +:+ join (CPUAffinity c) "," +:+ nl +:+
  "Hostname=" +:+ Hostname c +:+ nl +:+
  "ResolvConf=" +:+ ResolvConf c +:+ nl +:+
  "Timezone=" +:+ Timezone c +:+ nl +:+
  "LinkJournal=" +:+ LinkJournal c +:+ nl.

Definition filesSection (c : TaskConfig) : string :=
  "[Files]" +:+ nl +:+
  "ReadOnly=" +:+ onoff (ReadOnly c) +:+ nl +:+
  "Volatile=" +:+ Volatile c +:+
  rangeLines "Bind" (Bind c) +:+
  rangeLines "BindReadOnly" (BindReadOnly c) +:+
  rangeLines "TemporaryFileSystem" (TemporaryFileSystem c) +:+
  rangeLines "Inaccessible" (Inaccessible c) +:+
  rangeJoined "Overlay" (Overlay c) +:+
  rangeJoined "OverlayReadOnly" (OverlayReadOnly c) +:+ nl +:+
  "PrivateUsersChown=" +:+ onoff (PrivateUsersChown c) +:+ nl.

(** The [Interface] line of the template joins [.Parameters], not
    [.Interface]. *)
Definition networkSection (c : TaskConfig) : string :=
  "[Network]" +:+ nl +:+
  "Private=" +:+ onoff (Private c) +:+ nl +:+
  "VirtualEthernet=" +:+ onoff (VirtualEthernet c) +:+
  rangeLines "VirtualEthernetExtra" (VirtualEthernetExtra c) +:+ nl +:+
  "Interface=" +:+ join (Parameters c) " " +:+ nl +:+
  "MACVLAN=" +:+ join (MACVLAN c) " " +:+ nl +:+
  "IPVLAN=" +:+ join (IPVLAN c) " " +:+ nl +:+
  "Bridge=" +:+ Bridge c +:+ nl +:+
  "Zone=" +:+ Zone c +:+
  rangeLines "Port" (Port c) +:+ nl.

(** One execution of [tmpl.Execute] into a buffer, when the runtime
    enumerates the keys of [.Environment] in the order of [enum]. *)
Definition renderWith (enum : list (string * string)) (c : TaskConfig) : string :=
  execSection enum c +:+ nl +:+ filesSection c +:+ nl +:+ networkSection c.

(** [tmpl.Execute(buf, c)]. *)
Definition render (c : TaskConfig) : string :=
  renderWith (map_to_list (Environment c)) c.

(** ** template_test.go *)

(** The [data] of [TestTemplate]. *)
Definition testData : TaskConfig := {|
  Image := "";
  Boot := true; Ephemeral := false; ProcessTwo := false;
  Parameters := ["1"; "2"; "3"];
  Environment := <["a" := "b"]> (<["1" := "2"]> ∅);
  User := "abc"; WorkingDirectory := ""; PivotRoot := "";
  Capability := ["1"; "2"; "3"]; DropCapability := [];
  NoNewPrivileges := false;
  KillSignal := 127%N; Personality := ""; MachineID := ""; PrivateUsers := "";
  NotifyReady := false; SystemCallFilter := [];
  LimitCPU := ""; LimitFSIZE := ""; LimitDATA := ""; LimitSTACK := "";
  LimitCORE := ""; LimitRSS := ""; LimitNOFILE := ""; LimitAS := "";
  LimitNPROC := ""; LimitMEMLOCK := ""; LimitLOCKS := "";
  LimitSIGPENDING := ""; LimitMSGQUEUE := ""; LimitNICE := "";
  LimitRTPRIO := ""; LimitRTTIME := "";
  OOMScoreAdjust := 1; CPUAffinity := [];
  Hostname := ""; ResolvConf := ""; Timezone := ""; LinkJournal := "";
  ReadOnly := false; Volatile := "";
  Bind := []; BindReadOnly := []; TemporaryFileSystem := [];
  Inaccessible := [];
  Overlay := [["1"; "2"; "3"]; ["2"; "4"; "6"]]; OverlayReadOnly := [];
  PrivateUsersChown := false;
  Private := false; VirtualEthernet := false; VirtualEthernetExtra := [];
  Interface := []; MACVLAN := []; IPVLAN := [];
  Bridge := ""; Zone := ""; Port := []
|}.

(** [unlines ls] ends every line of [ls] with a line feed. *)
Definition unlines (ls : list string) : string :=
  foldr (fun l acc => l +:+ nl +:+ acc) "" ls.

(** The [result] constant of the test, line by line. *)
Definition resultLines : list string := [
  "[Exec]";
  "Boot=on";
  "Ephemeral=off";
  "ProcessTwo=off";
  "Parameters=1,2,3";
  "Environment=1=2";
  "Environment=a=b";
  "User=abc";
  "WorkingDirectory=";
  "PivotRoot=";
  "Capability=1 2 3";
  "DropCapability=";
  "NoNewPrivileges=off";
  "KillSignal=127";
  "Personality=";
  "MachineID=";
  "PrivateUsers=";
  "NotifyReady=off";
  "SystemCallFilter=";
  "LimitCPU=";
  "LimitFSIZE=";
  "LimitDATA=";
  "LimitSTACK=";
  "LimitCORE=";
  "LimitRSS=";
  "LimitNOFILE=";
  "LimitAS=";
  "LimitNPROC=";
  "LimitMEMLOCK=";
  "LimitLOCKS=";
  "LimitSIGPENDING=";
  "LimitMSGQUEUE=";
  "LimitNICE=";
  "LimitRTPRIO=";
  "LimitRTTIME=";
  "OOMScoreAdjust=1";
  "CPUAffinity=";
  "Hostname=";
  "ResolvConf=";
  "Timezone=";
  "LinkJournal=";
  "";
  "[Files]";
  "ReadOnly=off";
  "Volatile=";
  "Overlay=1:2:3";
  "Overlay=2:4:6";
  "PrivateUsersChown=off";
  "";
  "[Network]";
  "Private=off";
  "VirtualEthernet=off";
  "Interface=1 2 3";
  "MACVLAN=";
  "IPVLAN=";
  "Bridge=";
  "Zone="
].

Definition result : string := unlines resultLines.

(** ** The template, line by line

    A second view of [nspawnTemplate], used to state what is emitted per
    directive: the template is a sequence of section headers, blank lines,
    directives that are written exactly once, and directives that are
    written once per element of a list. [render_unlines] below shows that
    this view is byte-for-byte the output of [renderWith]. *)

Inductive item :=
  | Header (name : string)
  | Blank
  | Single (key value : string)
  | Repeated (key : string) (values : list string).

Definition itemLines (i : item) : list string :=
  match i with
  | Header name => ["[" +:+ name +:+ "]"]
  | Blank => [""]
  | Single key value => [key +:+ "=" +:+ value]
  | Repeated key values => (fun v => key +:+ "=" +:+ v) <$> values
  end.

Definition execItems (enum : list (string * string)) (c : TaskConfig) : list item := [
  Header "Exec";
  Single "Boot" (onoff (Boot c));
  Single "Ephemeral" (onoff (Ephemeral c));
  Single "ProcessTwo" (onoff (ProcessTwo c));
  Single "Parameters" (join (Parameters c) ",");
  Repeated "Environment" ((fun e => e.1 +:+ "=" +:+ e.2) <$> sortEntries enum);
  Single "User" (User c);
  Single "WorkingDirectory" (WorkingDirectory c);
  Single "PivotRoot" (PivotRoot c);
  Single "Capability" (join (Capability c) " ");
  Single "DropCapability" (join (DropCapability c) " ");
  Single "NoNewPrivileges" (onoff (NoNewPrivileges c));
  Single "KillSignal" (formatUint (KillSignal c));
  Single "Personality" (Personality c);
  Single "MachineID" (MachineID c);
  Single "PrivateUsers" (PrivateUsers c);
  Single "NotifyReady" (onoff (NotifyReady c));
  Single "SystemCallFilter" (join (SystemCallFilter c) " ");
  Single "LimitCPU" (LimitCPU c);
  Single "LimitFSIZE" (LimitFSIZE c);
  Single "LimitDATA" (LimitDATA c);
  Single "LimitSTACK" (LimitSTACK c);
  Single "LimitCORE" (LimitCORE c);
  Single "LimitRSS" (LimitRSS c);
  Single "LimitNOFILE" (LimitNOFILE c);
  Single "LimitAS" (LimitAS c);
  Single "LimitNPROC" (LimitNPROC c);
  Single "LimitMEMLOCK" (LimitMEMLOCK c);
  Single "LimitLOCKS" (LimitLOCKS c);
  Single "LimitSIGPENDING" (LimitSIGPENDING c);
  Single "LimitMSGQUEUE" (LimitMSGQUEUE c);
  Single "LimitNICE" (LimitNICE c);
  Single "LimitRTPRIO" (LimitRTPRIO c);
  Single "LimitRTTIME" (LimitRTTIME c);
  Single "OOMScoreAdjust" (formatInt (OOMScoreAdjust c));
  Single "CPUAffinity" (join (CPUAffinity c) ",");
  Single "Hostname" (Hostname c);
  Single "ResolvConf" (ResolvConf c);
  Single "Timezone" (Timezone c);
  Single "LinkJournal" (LinkJournal c)
].

Definition filesItems (c : TaskConfig) : list item := [
  Header "Files";
  Single "ReadOnly" (onoff (ReadOnly c));
  Single "Volatile" (Volatile c);
  Repeated "Bind" (Bind c);
  Repeated "BindReadOnly" (BindReadOnly c);
  Repeated "TemporaryFileSystem" (TemporaryFileSystem c);
  Repeated "Inaccessible" (Inaccessible c);
  Repeated "Overlay" ((fun vs => join vs ":") <$> Overlay c);
  Repeated "OverlayReadOnly" ((fun vs => join vs ":") <$> OverlayReadOnly c);
  Single "PrivateUsersChown" (onoff (PrivateUsersChown c))
].

Definition networkItems (c : TaskConfig) : list item := [
  Header "Network";
  Single "Private" (onoff (Private c));
  Single "VirtualEthernet" (onoff (VirtualEthernet c));
  Repeated "VirtualEthernetExtra" (VirtualEthernetExtra c);
  Single "Interface" (join (Parameters c) " ");
  Single "MACVLAN" (join (MACVLAN c) " ");
  Single "IPVLAN" (join (IPVLAN c) " ");
  Single "Bridge" (Bridge c);
  Single "Zone" (Zone c);
  Repeated "Port" (Port c)
].

Definition templateItems (enum : list (string * string)) (c : TaskConfig) : list item :=
  execItems enum c ++ Blank :: filesItems c ++ Blank :: networkItems c.

Definition linesOf (items : list item) : list string :=
  concat (itemLines <$> items).

Definition renderLines (enum : list (string * string)) (c : TaskConfig) : list string :=
  linesOf (templateItems enum c).

(** A line belongs to directive [key] when it starts with [key=]. *)
Definition hasKey (key line : string) : bool := String.prefix (key +:+ "=") line.

Definition directiveCount (key : string) (ls : list string) : nat :=
  length (filter (fun l => hasKey key l = true) ls).

(** The directives the template writes exactly once. *)
Definition singleKeys : list string := [
  "Boot"; "Ephemeral"; "ProcessTwo"; "Parameters"; "User"; "WorkingDirectory";
  "PivotRoot"; "Capability"; "DropCapability"; "NoNewPrivileges"; "KillSignal";
  "Personality"; "MachineID"; "PrivateUsers"; "NotifyReady"; "SystemCallFilter";
  "LimitCPU"; "LimitFSIZE"; "LimitDATA"; "LimitSTACK"; "LimitCORE"; "LimitRSS";
  "LimitNOFILE"; "LimitAS"; "LimitNPROC"; "LimitMEMLOCK"; "LimitLOCKS";
  "LimitSIGPENDING"; "LimitMSGQUEUE"; "LimitNICE"; "LimitRTPRIO"; "LimitRTTIME";
  "OOMScoreAdjust"; "CPUAffinity"; "Hostname"; "ResolvConf"; "Timezone";
  "LinkJournal";
  "ReadOnly"; "Volatile"; "PrivateUsersChown";
  "Private"; "VirtualEthernet"; "Interface"; "MACVLAN"; "IPVLAN"; "Bridge"; "Zone"
].

(** The round trip as the specification describes it: the lines of
    [result], except that the Interface line is empty. *)
Definition describedLines : list string :=
  (fun l => if String.eqb l "Interface=1 2 3" then "Interface=" else l)
    <$> resultLines.

(** Directive keys are plain names: no [=] inside, no [[] in front. *)
Fixpoint noEq (s : string) : bool :=
  match s with
  | EmptyString => true
  | String a s' => negb (Ascii.eqb a "="%char) && noEq s'
  end.

Definition plainKey (k : string) : bool :=
  noEq k && negb (String.prefix "[" k).

Definition itemKeyOk (i : item) : bool :=
  match i with
  | Single k _ | Repeated k _ => plainKey k
  | Header _ | Blank => true
  end.

(** How many lines of directive [key] an item stands for. *)
Definition itemCount (key : string) (i : item) : nat :=
  match i with
  | Header _ | Blank => 0
  | Single k _ => if String.eqb key k then 1 else 0
  | Repeated k vs => if String.eqb key k then length vs else 0
  end.

(** The lines of directive [key] an item stands for. *)
Definition itemSelect (key : string) (i : item) : list string :=
  match i with
  | Header _ | Blank => []
  | Single k _ | Repeated k _ => if String.eqb key k then itemLines i else []
  end.

(** A directive line is [key=value] for a plain key. *)
Definition directiveLine (l : string) : Prop :=
  exists k v, plainKey k = true /\ l = k +:+ "=" +:+ v.

Definition directiveItem (i : item) : bool :=
  match i with
  | Single k _ | Repeated k _ => plainKey k
  | Header _ | Blank => false
  end.

(** Reading a rendered integer back. *)
Definition parseInt (s : string) : option Z := Z.of_int <$> NilZero.int_of_string s.

(** ** machine.go *)

(** [drivers.TaskConfig] of the Nomad plugin API: the two fields that
    [CreateMachine] reads. *)
Module drivers.

Record TaskConfig := { Name : string; AllocID : string }.

End drivers.

(** Available state for machine: the constants [MachineStateOpening],
    [MachineStateRunning] and [MachineStateClosing], with their D-Bus text. *)
Inductive MachineState :=
  | MachineStateOpening
  | MachineStateRunning
  | MachineStateClosing.

Definition stateText (s : MachineState) : string :=
  match s with
  | MachineStateOpening => "opening"
  | MachineStateRunning => "running"
  | MachineStateClosing => "closing"
  end.

(** The [Machine] struct; times are microseconds as in the D-Bus
    properties. *)
Record Machine := {
  Name : string;
  ID : list N;
  Timestamp : Z;
  TimestampMonotonic : Z;
  Service : string;
  Unit : string;
  Leader : Z;
  Class : string;
  RootDirectory : string;
  NetworkInterfaces : list Z;
  State : MachineState
}.

(** Go [error] values, by their message. *)
Definition error : Type := string.

(** One entry of [importdConn.ListTransfers()]; only [Id] is read. *)
Record TransferStatus := { Id : N; Local : string }.

(** What the host answers to the calls made by [CreateMachine]:
    [PullRaw(image, local)], the [k]-th [ListTransfers()], [os.Create(path)],
    the write of the rendered text (a failure comes with the number of bytes
    that reached the file), [StartUnit(name, mode)] and the job result sent
    on the channel, whose receive is taken to complete. *)
Record Host := {
  pullRaw : string -> string -> error + N;
  listTransfers : nat -> error + list TransferStatus;
  osCreate : string -> option error;
  fileWrite : string -> string -> option (nat * error);
  startUnit : string -> string -> option error;
  jobResult : string -> string
}.

(** What [CreateMachine] changes: the files under [/etc/systemd/nspawn]
    and the error log of the driver. *)
Record Sys := {
  files : gmap string string;
  logged : list string
}.

Definition logError (msg : string) (s : Sys) : Sys :=
  {| files := files s; logged := logged s ++ [msg] |}.

Definition putFile (path content : string) (s : Sys) : Sys :=
  {| files := <[path := content]> (files s); logged := logged s |}.

(** [fmt.Sprintf("%s-%s", strings.Replace(cfg.Name, "/", "_", -1), cfg.AllocID)] *)
Definition machineName (cfg : drivers.TaskConfig) : string :=
  replaceSlash (drivers.Name cfg) +:+ "-" +:+ drivers.AllocID cfg.

Definition unitPath (cfg : drivers.TaskConfig) : string :=
  "/etc/systemd/nspawn/" +:+ machineName cfg.

Definition unitName (cfg : drivers.TaskConfig) : string :=
  "systemd-nspawn@" +:+ machineName cfg +:+ ".service".

(** The inner [for _, v := range ts] scan. *)
Definition found (ts : list TransferStatus) (id : N) : bool :=
  existsb (fun v => (Id v =? id)%N) ts.

(** The [for { ... }] loop that waits for the transfer to leave the list.
    [k] counts the [ListTransfers] calls made so far; [fuel] bounds the
    number of iterations that are run, and [None] means the loop is still
    running after [fuel] iterations. A finished loop gives the listing error,
    if any. *)
Fixpoint waitTransfer (fuel : nat) (h : Host) (id : N) (k : nat) : option (option error) :=
  match fuel with
  | O => None
  | S fuel' =>
      match listTransfers h k with
      | inl err => Some (Some err)
      | inr ts => if found ts id then waitTransfer fuel' h id (S k) else Some None
      end
  end.

(** [CreateMachine]: the result is the pair of named results [(m, err)] and
    the system afterwards; [None] when the wait loop has not ended within
    [fuel] iterations. [m] is declared and never assigned. *)
Definition CreateMachine (fuel : nat) (h : Host) (s : Sys)
    (cfg : drivers.TaskConfig) (taskConfig : TaskConfig)
    : option (option Machine * option error * Sys) :=
  let m : option Machine := None in
  match pullRaw h (Image taskConfig) (machineName cfg) with
  | inl err => Some (m, Some err, s)
  | inr trans =>
      match waitTransfer fuel h trans 0 with
      | None => None
      | Some (Some err) => Some (None, Some err, s)
      | Some None =>
          match osCreate h (unitPath cfg) with
          | Some err => Some (m, Some err, logError "Create nspawn file failed" s)
          | None =>
              let text := render taskConfig in
              match fileWrite h (unitPath cfg) text with
              | Some (n, err) =>
                  Some (m, Some err,
                        logError "Generate nspawn file failed"
                          (putFile (unitPath cfg) (String.substring 0 n text) s))
              | None =>
                  let s := putFile (unitPath cfg) text s in
                  match startUnit h (unitName cfg) "replace" with
                  | Some err =>
                      Some (m, Some err, logError "Create machine unit failed" s)
                  | None =>
                      let job := jobResult h (unitName cfg) in
                      if String.eqb job "done"
                      then Some (m, None, s)
                      else Some (m, None, logError "Start machine unit failed" s)
                  end
              end
          end
      end
  end.

(** [ListTransfers] answer [k] still shows transfer [id]. *)
Definition stillActive (h : Host) (id : N) (k : nat) : Prop :=
  exists ts, listTransfers h k = inr ts /\ found ts id = true.

(** How the loop ends at answer [k]: with the listing error, or with the
    transfer gone. *)
Definition endsAt (h : Host) (id : N) (k : nat) (r : option error) : Prop :=
  match listTransfers h k with
  | inl err => r = Some err
  | inr ts => found ts id = false /\ r = None
  end.

(** Where a failed [CreateMachine] leaves the system: untouched when the
    pull, a listing or [os.Create] failed; with the unit file (as far as it
    was written) in place when the write or [StartUnit] failed. *)
Definition afterFailure (h : Host) (s : Sys) (cfg : drivers.TaskConfig)
    (taskConfig : TaskConfig) (err : error) (s' : Sys) : Prop :=
  (pullRaw h (Image taskConfig) (machineName cfg) = inl err /\ s' = s) \/
  (exists id n, pullRaw h (Image taskConfig) (machineName cfg) = inr id /\
                listTransfers h n = inl err /\ s' = s) \/
  (osCreate h (unitPath cfg) = Some err /\ files s' = files s) \/
  (exists n, fileWrite h (unitPath cfg) (render taskConfig) = Some (n, err) /\
             files s' = <[unitPath cfg := String.substring 0 n (render taskConfig)]> (files s)) \/
  (startUnit h (unitName cfg) "replace" = Some err /\
   files s' = <[unitPath cfg := render taskConfig]> (files s)).

(** ** MachineRegistry *)

(** Modelled from the spec: the machine registry ([register], [lookup],
    [transition]) is not in the source, where [GetMachine], [KillMachine] and
    [TerminateMachine] are stubs; only the [Machine] struct and the three
    state constants are. The registry maps a machine name to its entry;
    [transition] applies a state change only if it follows the order
    Opening, Running, Closing, and signals [InvalidStateTransition]
    otherwise. *)
Inductive RegistryError :=
  | DuplicateMachine
  | MachineNotFound
  | InvalidStateTransition.

(** Modelled from the spec: the place of a state in the order Opening,
    Running, Closing of the machine states. *)
Definition stateRank (s : MachineState) : nat :=
  match s with
  | MachineStateOpening => 0
  | MachineStateRunning => 1
  | MachineStateClosing => 2
  end.

(** The entry [m] with its [State] field set to [st]. *)
Definition withState (st : MachineState) (m : Machine) : Machine :=
  {| Name := Name m; ID := ID m; Timestamp := Timestamp m;
     TimestampMonotonic := TimestampMonotonic m; Service := Service m;
     Unit := Unit m; Leader := Leader m; Class := Class m;
     RootDirectory := RootDirectory m;
     NetworkInterfaces := NetworkInterfaces m; State := st |}.

Module MachineRegistry.

(** Modelled from the spec: inserts a new entry in state Opening, failing
    with [DuplicateMachine] if the name is already registered. *)
Definition register (m : Machine) (r : gmap string Machine)
    : RegistryError + gmap string Machine :=
  match r !! Name m with
  | Some _ => inl DuplicateMachine
  | None => inr (<[Name m := withState MachineStateOpening m]> r)
  end.

(** Modelled from the spec: returns the entry or [MachineNotFound]. *)
Definition lookup (name : string) (r : gmap string Machine)
    : RegistryError + Machine :=
  match r !! name with
  | Some m => inr m
  | None => inl MachineNotFound
  end.

(** Modelled from the spec: applies the state change only if it moves
    forward in the order of the states. *)
Definition transition (name : string) (newState : MachineState)
    (r : gmap string Machine) : RegistryError + gmap string Machine :=
  match r !! name with
  | None => inl MachineNotFound
  | Some m =>
      if (stateRank (State m) <? stateRank newState)%nat
      then inr (<[name := withState newState m]> r)
      else inl InvalidStateTransition
  end.

End MachineRegistry.

(** ** Sample runs *)

Definition webTask : drivers.TaskConfig :=
  {| drivers.Name := "web/api"; drivers.AllocID := "a1" |}.

Definition emptySys : Sys := {| files := ∅; logged := [] |}.

(** A host on which every call succeeds: the transfer gets ID 1, is listed
    by the first two [ListTransfers] answers and gone in the third, and the
    job ends with [job]. *)
Definition okHost (job : string) : Host := {|
  pullRaw _ _ := inr 1%N;
  listTransfers k :=
    if (k <? 2)%nat then inr [{| Id := 1%N; Local := "web_api-a1" |}] else inr [];
  osCreate _ := None;
  fileWrite _ _ := None;
  startUnit _ _ := None;
  jobResult _ := job
|}.

(** A host whose transfer list shows transfer 1 for ever. *)
Definition busyHost : Host := {|
  pullRaw _ _ := inr 1%N;
  listTransfers _ := inr [{| Id := 1%N; Local := "web_api-a1" |}];
  osCreate _ := None;
  fileWrite _ _ := None;
  startUnit _ _ := None;
  jobResult _ := "done"
|}.

(** A host on which [ListTransfers] fails at the second call. *)
Definition listFailsHost : Host := {|
  pullRaw _ _ := inr 1%N;
  listTransfers k :=
    if (k <? 1)%nat then inr [{| Id := 1%N; Local := "web_api-a1" |}]
    else inl "connection closed";
  osCreate _ := None;
  fileWrite _ _ := None;
  startUnit _ _ := None;
  jobResult _ := "done"
|}.

(** A host on which [StartUnit] fails. *)
Definition startFailsHost : Host := {|
  pullRaw _ _ := inr 1%N;
  listTransfers _ := inr [];
  osCreate _ := None;
  fileWrite _ _ := None;
  startUnit _ _ := Some "unit not found";
  jobResult _ := "done"
|}.

(** A machine entry for the registry. *)
Definition webMachine (st : MachineState) : Machine := {|
  Name := "web_api-a1"; ID := []; Timestamp := 0; TimestampMonotonic := 0;
  Service := "systemd-nspawn"; Unit := "systemd-nspawn@web_api-a1.service";
  Leader := 4242; Class := "container"; RootDirectory := "/var/lib/machines/web_api-a1";
  NetworkInterfaces := []; State := st
|}.

(** ** The fields the template does not read *)

(** The configuration [c] with other [Image] and [Interface] fields. *)
Definition withImageInterface (image : string) (interface : list string)
    (c : TaskConfig) : TaskConfig := {|
  Image := image;
  Boot := Boot c;
  Ephemeral := Ephemeral c;
  ProcessTwo := ProcessTwo c;
  Parameters := Parameters c;
  Environment := Environment c;
  User := User c;
  WorkingDirectory := WorkingDirectory c;
  PivotRoot := PivotRoot c;
  Capability := Capability c;
  DropCapability := DropCapability c;
  NoNewPrivileges := NoNewPrivileges c;
  KillSignal := KillSignal c;
  Personality := Personality c;
  MachineID := MachineID c;
  PrivateUsers := PrivateUsers c;
  NotifyReady := NotifyReady c;
  SystemCallFilter := SystemCallFilter c;
  LimitCPU := LimitCPU c;
  LimitFSIZE := LimitFSIZE c;
  LimitDATA := LimitDATA c;
  LimitSTACK := LimitSTACK c;
  LimitCORE := LimitCORE c;
  LimitRSS := LimitRSS c;
  LimitNOFILE := LimitNOFILE c;
  LimitAS := LimitAS c;
  LimitNPROC := LimitNPROC c;
  LimitMEMLOCK := LimitMEMLOCK c;
  LimitLOCKS := LimitLOCKS c;
  LimitSIGPENDING := LimitSIGPENDING c;
  LimitMSGQUEUE := LimitMSGQUEUE c;
  LimitNICE := LimitNICE c;
  LimitRTPRIO := LimitRTPRIO c;
  LimitRTTIME := LimitRTTIME c;
  OOMScoreAdjust := OOMScoreAdjust c;
  CPUAffinity := CPUAffinity c;
  Hostname := Hostname c;
  ResolvConf := ResolvConf c;
  Timezone := Timezone c;
  LinkJournal := LinkJournal c;
  ReadOnly := ReadOnly c;
  Volatile := Volatile c;
  Bind := Bind c;
  BindReadOnly := BindReadOnly c;
  TemporaryFileSystem := TemporaryFileSystem c;
  Inaccessible := Inaccessible c;
  Overlay := Overlay c;
  OverlayReadOnly := OverlayReadOnly c;
  PrivateUsersChown := PrivateUsersChown c;
  Private := Private c;
  VirtualEthernet := VirtualEthernet c;
  VirtualEthernetExtra := VirtualEthernetExtra c;
  Interface := interface;
  MACVLAN := MACVLAN c;
  IPVLAN := IPVLAN c;
  Bridge := Bridge c;
  Zone := Zone c;
  Port := Port c
|}.

(** The configuration [c] with another environment map. *)
Definition withEnvironment (env : gmap string string) (c : TaskConfig)
    : TaskConfig := {|
  Image := Image c;
  Boot := Boot c;
  Ephemeral := Ephemeral c;
  ProcessTwo := ProcessTwo c;
  Parameters := Parameters c;
  Environment := env;
  User := User c;
  WorkingDirectory := WorkingDirectory c;
  PivotRoot := PivotRoot c;
  Capability := Capability c;
  DropCapability := DropCapability c;
  NoNewPrivileges := NoNewPrivileges c;
  KillSignal := KillSignal c;
  Personality := Personality c;
  MachineID := MachineID c;
  PrivateUsers := PrivateUsers c;
  NotifyReady := NotifyReady c;
  SystemCallFilter := SystemCallFilter c;
  LimitCPU := LimitCPU c;
  LimitFSIZE := LimitFSIZE c;
  LimitDATA := LimitDATA c;
  LimitSTACK := LimitSTACK c;
  LimitCORE := LimitCORE c;
  LimitRSS := LimitRSS c;
  LimitNOFILE := LimitNOFILE c;
  LimitAS := LimitAS c;
  LimitNPROC := LimitNPROC c;
  LimitMEMLOCK := LimitMEMLOCK c;
  LimitLOCKS := LimitLOCKS c;
  LimitSIGPENDING := LimitSIGPENDING c;
  LimitMSGQUEUE := LimitMSGQUEUE c;
  LimitNICE := LimitNICE c;
  LimitRTPRIO := LimitRTPRIO c;
  LimitRTTIME := LimitRTTIME c;
  OOMScoreAdjust := OOMScoreAdjust c;
  CPUAffinity := CPUAffinity c;
  Hostname := Hostname c;
  ResolvConf := ResolvConf c;
  Timezone := Timezone c;
  LinkJournal := LinkJournal c;
  ReadOnly := ReadOnly c;
  Volatile := Volatile c;
  Bind := Bind c;
  BindReadOnly := BindReadOnly c;
  TemporaryFileSystem := TemporaryFileSystem c;
  Inaccessible := Inaccessible c;
  Overlay := Overlay c;
  OverlayReadOnly := OverlayReadOnly c;
  PrivateUsersChown := PrivateUsersChown c;
  Private := Private c;
  VirtualEthernet := VirtualEthernet c;
  VirtualEthernetExtra := VirtualEthernetExtra c;
  Interface := Interface c;
  MACVLAN := MACVLAN c;
  IPVLAN := IPVLAN c;
  Bridge := Bridge c;
  Zone := Zone c;
  Port := Port c
|}.

(** ** Reading the rendered text back *)

(** No line feed inside. *)
Fixpoint nlFree (s : string) : bool :=
  match s with
  | EmptyString => true
  | String a s' => negb (Ascii.eqb a "010"%char) && nlFree s'
  end.

(** The lines of a text: the parts between line feeds, the line feed that
    ends the text opening no further line. *)
Fixpoint splitLines (s : string) : list string :=
  match s with
  | EmptyString => []
  | String a s' =>
      if Ascii.eqb a "010"%char then "" :: splitLines s'
      else match splitLines s' with
           | [] => [String a ""]
           | l :: ls => String a l :: ls
           end
  end.

(** The fields that are written on a line of their own as they are: the
    booleans, the two integers, the plain strings, and the lists of the
    repeated directives whose elements are not joined. *)
Definition boolFields (c : TaskConfig) : list bool :=
  [Boot c; Ephemeral c; ProcessTwo c; NoNewPrivileges c; NotifyReady c;
   ReadOnly c; PrivateUsersChown c; Private c; VirtualEthernet c].

Definition stringFields (c : TaskConfig) : list string :=
  [User c; WorkingDirectory c; PivotRoot c; Personality c; MachineID c;
   PrivateUsers c; LimitCPU c; LimitFSIZE c; LimitDATA c; LimitSTACK c;
   LimitCORE c; LimitRSS c; LimitNOFILE c; LimitAS c; LimitNPROC c;
   LimitMEMLOCK c; LimitLOCKS c; LimitSIGPENDING c; LimitMSGQUEUE c;
   LimitNICE c; LimitRTPRIO c; LimitRTTIME c; Hostname c; ResolvConf c;
   Timezone c; LinkJournal c; Volatile c; Bridge c; Zone c].

Definition plainListFields (c : TaskConfig) : list (list string) :=
  [Bind c; BindReadOnly c; TemporaryFileSystem c; Inaccessible c;
   VirtualEthernetExtra c; Port c].

(** ** Slashes in a name *)

Fixpoint hasSlash (s : string) : bool :=
  match s with
  | EmptyString => false
  | String a s' => Ascii.eqb a "/"%char || hasSlash s'
  end.

(** ** driver.go: the driver and SetConfig *)

(** The parts of the plugin API of Nomad that [SetConfig] reads:
    [base.Config] with its [PluginConfig] bytes and its [AgentConfig]
    pointer, whose [Driver] field points to a [ClientDriverConfig]. *)
Module base.

Record ClientDriverConfig := { ClientMaxPort : N; ClientMinPort : N }.

Record AgentConfig := { Driver : option ClientDriverConfig }.

Record Config := {
  ApiVersion : string;
  PluginConfig : list N;
  AgentConfig' : option AgentConfig
}.

End base.

(** [Config] is the driver configuration set by the SetConfig RPC call. *)
Record Config := { Enabled : bool }.

(** The [Driver] struct, as far as [SetConfig] goes: [config] and
    [nomadConfig] (a nil pointer is [None]); the eventer, the context and
    the logger are not touched by it. *)
Record Driver := {
  config : Config;
  nomadConfig : option base.ClientDriverConfig
}.

(** [NewSystemdNSpawnDriver]: [config] is [&Config{}]. *)
Definition NewSystemdNSpawnDriver : Driver :=
  {| config := {| Enabled := false |}; nomadConfig := None |}.

(** [SetConfig], over the decoder [base.MsgPackDecode] of the plugin API,
    which fills a zero [Config] from the bytes or fails. The result is the
    error returned and the driver afterwards. *)
Definition SetConfig (MsgPackDecode : list N -> error + Config)
    (d : Driver) (cfg : base.Config) : option error * Driver :=
  let decoded :=
    if (length (base.PluginConfig cfg) =? 0)%nat
    then inr {| Enabled := false |}
    else MsgPackDecode (base.PluginConfig cfg) in
  match decoded with
  | inl err => (Some err, d)
  | inr config' =>
      let d := {| config := config'; nomadConfig := nomadConfig d |} in
      match base.AgentConfig' cfg with
      | Some agent =>
          (None, {| config := config d; nomadConfig := base.Driver agent |})
      | None => (None, d)
      end
  end.

(** A decoder for sample runs: one byte, [1] for enabled and [0] for
    disabled; anything else is rejected. *)
Definition sampleDecode (bytes : list N) : error + Config :=
  match bytes with
  | [b] =>
      if (b =? 1)%N then inr {| Enabled := true |}
      else if (b =? 0)%N then inr {| Enabled := false |}
      else inl "msgpack: invalid code"
  | _ => inl "msgpack: invalid code"
  end.

(** * Properties *)

(** ** Strings *)

Lemma string_app_cons (x : ascii) (a b : string) :
  String x a +:+ b = String x (a +:+ b).
Proof. reflexivity. Qed.

Lemma string_app_nil_l (a : string) : "" +:+ a = a.
Proof. reflexivity. Qed.

(** Push the constructors of a literal in front of an append. *)
Ltac push_app :=
  repeat first [rewrite string_app_cons | rewrite string_app_nil_l];
  repeat first [rewrite string_app_cons in * | rewrite string_app_nil_l in *].

Lemma string_app_assoc (a b c : string) : (a +:+ b) +:+ c = a +:+ b +:+ c.
Proof.
  induction a as [|x a IH]; [done|].
  by rewrite !string_app_cons, IH.
Qed.

Lemma string_app_empty_r (a : string) : a +:+ "" = a.
Proof.
  induction a as [|x a IH]; [done|].
  by rewrite string_app_cons, IH.
Qed.

Lemma string_length_app (a b : string) :
  String.length (a +:+ b) = (String.length a + String.length b)%nat.
Proof.
  induction a as [|x a IH]; [done|].
  rewrite string_app_cons. cbn [String.length]. by rewrite IH.
Qed.

Lemma unlines_app (l1 l2 : list string) :
  unlines (l1 ++ l2) = unlines l1 +:+ unlines l2.
Proof.
  induction l1 as [|l l1 IH]; [done|].
  cbn [unlines foldr app]. fold (unlines (l1 ++ l2)). fold (unlines l1).
  by rewrite IH, !string_app_assoc.
Qed.

(** The trimmed [range] blocks: moving the line feed that follows a block
    in front of it turns the block into whole lines. *)
Lemma rangeLines_nl (key : string) (vs : list string) (rest : string) :
  rangeLines key vs +:+ nl +:+ rest =
  nl +:+ unlines ((fun v => key +:+ "=" +:+ v) <$> vs) +:+ rest.
Proof.
  induction vs as [|v vs IH]; [done|].
  cbn [rangeLines foldr fmap list_fmap unlines].
  fold (rangeLines key vs).
  fold (unlines ((fun v => key +:+ "=" +:+ v) <$> vs)).
  rewrite !string_app_assoc. by rewrite IH.
Qed.

Lemma rangeLines_nl_end (key : string) (vs : list string) :
  rangeLines key vs +:+ nl =
  nl +:+ unlines ((fun v => key +:+ "=" +:+ v) <$> vs).
Proof.
  rewrite <-(string_app_empty_r nl) at 1.
  by rewrite rangeLines_nl, string_app_empty_r.
Qed.

Lemma linesOf_app (i1 i2 : list item) : linesOf (i1 ++ i2) = linesOf i1 ++ linesOf i2.
Proof. unfold linesOf. by rewrite fmap_app, concat_app. Qed.

Lemma linesOf_cons (i : item) (rest : list item) :
  linesOf (i :: rest) = itemLines i ++ linesOf rest.
Proof. done. Qed.

Lemma execSection_unlines enum c :
  execSection enum c = unlines (linesOf (execItems enum c)).
Proof.
  unfold execSection, execItems, rangeEnvironment.
  rewrite !rangeLines_nl.
  rewrite !linesOf_cons. cbn [itemLines linesOf fmap list_fmap concat].
  rewrite !unlines_app. cbn [unlines foldr app].
  rewrite !string_app_assoc, ?string_app_empty_r.
  reflexivity.
Qed.

Lemma filesSection_unlines c :
  filesSection c = unlines (linesOf (filesItems c)).
Proof.
  unfold filesSection, filesItems, rangeJoined.
  rewrite !rangeLines_nl.
  rewrite !linesOf_cons. cbn [itemLines linesOf fmap list_fmap concat].
  rewrite !unlines_app. cbn [unlines foldr app].
  rewrite !string_app_assoc, ?string_app_empty_r.
  reflexivity.
Qed.

Lemma networkSection_unlines c :
  networkSection c = unlines (linesOf (networkItems c)).
Proof.
  unfold networkSection, networkItems.
  rewrite rangeLines_nl_end, !rangeLines_nl.
  rewrite !linesOf_cons. cbn [itemLines linesOf fmap list_fmap concat].
  rewrite !unlines_app. cbn [unlines foldr app].
  rewrite !string_app_assoc, ?string_app_empty_r.
  reflexivity.
Qed.

(** The line view is exact: the rendered text is the lines of the
    template, each ended by a line feed. *)
Lemma render_unlines enum c : renderWith enum c = unlines (renderLines enum c).
Proof.
  unfold renderWith, renderLines, templateItems.
  rewrite linesOf_app, linesOf_cons, linesOf_app, linesOf_cons.
  rewrite !unlines_app.
  rewrite <-execSection_unlines, <-filesSection_unlines, <-networkSection_unlines.
  reflexivity.
Qed.

(** ** From the text back to the lines *)

Lemma splitLines_line (l rest : string) :
  nlFree l = true -> splitLines (l +:+ nl +:+ rest) = l :: splitLines rest.
Proof.
  induction l as [|a l IH]; intros Hl; push_app.
  - reflexivity.
  - cbn [nlFree] in Hl. apply andb_prop in Hl as [Ha Hl].
    cbn [splitLines]. apply negb_true_iff in Ha. rewrite Ha.
    change (String "010" rest) with (nl +:+ rest). by rewrite IH.
Qed.

Lemma splitLines_unlines (ls : list string) :
  Forall (fun l => nlFree l = true) ls -> splitLines (unlines ls) = ls.
Proof.
  induction 1 as [|l ls Hl _ IH]; [done|].
  cbn [unlines foldr]. fold (unlines ls). by rewrite splitLines_line, IH.
Qed.

(** Without line feeds inside the lines, the text determines them. *)
Lemma splitLines_renderWith enum c :
  Forall (fun l => nlFree l = true) (renderLines enum c) ->
  splitLines (renderWith enum c) = renderLines enum c.
Proof. intros Hls. rewrite render_unlines. by apply splitLines_unlines. Qed.

(** ** Counting the lines of a directive *)

Lemma hasKey_blank key : hasKey key "" = false.
Proof. unfold hasKey. by destruct key. Qed.

Lemma hasKey_header key name :
  plainKey key = true -> hasKey key ("[" +:+ name +:+ "]") = false.
Proof.
  unfold plainKey, hasKey. intros [_ Hb]%andb_prop.
  destruct key as [|a key]; push_app; cbn [String.prefix] in *; [done|].
  destruct (ascii_dec a "[") as [->|]; [exfalso|done].
  destruct (ascii_dec "[" "["); [|done].
  by destruct key.
Qed.

Lemma prefix_nil (s : string) : String.prefix "" s = true.
Proof. by destruct s. Qed.

Lemma hasKey_directive key k v :
  noEq key = true -> noEq k = true ->
  hasKey key (k +:+ "=" +:+ v) = String.eqb key k.
Proof.
  unfold hasKey. revert k.
  induction key as [|a key IH]; intros [|b k] Hkey Hk;
    cbn [noEq] in Hkey, Hk; push_app; cbn [String.prefix String.eqb].
  - destruct (ascii_dec "=" "="); [apply prefix_nil|done].
  - apply andb_prop in Hk as [Hb _].
    destruct (ascii_dec "=" b) as [<-|]; [done|done].
  - apply andb_prop in Hkey as [Ha _].
    destruct (ascii_dec a "=") as [->|]; [done|done].
  - apply andb_prop in Hkey as [_ Hkey]. apply andb_prop in Hk as [_ Hk].
    destruct (ascii_dec a b) as [->|Hab].
    + rewrite Ascii.eqb_refl. by apply IH.
    + by apply Ascii.eqb_neq in Hab as ->.
Qed.

Lemma directiveCount_app key l1 l2 :
  directiveCount key (l1 ++ l2) = (directiveCount key l1 + directiveCount key l2)%nat.
Proof. unfold directiveCount. by rewrite filter_app, length_app. Qed.

Lemma directiveCount_repeated key k vs :
  noEq key = true -> noEq k = true ->
  directiveCount key ((fun v => k +:+ "=" +:+ v) <$> vs) =
  if String.eqb key k then length vs else 0%nat.
Proof.
  intros Hkey Hk. unfold directiveCount.
  induction vs as [|v vs IH]; [by destruct (String.eqb key k)|].
  rewrite fmap_cons, filter_cons, hasKey_directive by done.
  destruct (String.eqb key k) eqn:E.
  - rewrite decide_True by done. cbn [length]. by rewrite IH.
  - by rewrite decide_False by done.
Qed.

Lemma directiveCount_itemLines key i :
  plainKey key = true -> itemKeyOk i = true ->
  directiveCount key (itemLines i) = itemCount key i.
Proof.
  intros Hkey Hi. pose proof Hkey as [Hk _]%andb_prop.
  destruct i as [name| |k v|k vs]; cbn [itemLines itemCount itemKeyOk] in *.
  - unfold directiveCount. rewrite filter_cons, hasKey_header by done.
    by rewrite decide_False by done.
  - unfold directiveCount. rewrite filter_cons, hasKey_blank.
    by rewrite decide_False by done.
  - apply andb_prop in Hi as [Hi _].
    change [k +:+ "=" +:+ v] with ((fun v => k +:+ "=" +:+ v) <$> [v]).
    rewrite directiveCount_repeated by done. by destruct (String.eqb key k).
  - apply andb_prop in Hi as [Hi _]. by apply directiveCount_repeated.
Qed.

Lemma directiveCount_linesOf key items :
  plainKey key = true -> forallb itemKeyOk items = true ->
  directiveCount key (linesOf items) = sum_list (itemCount key <$> items).
Proof.
  intros Hkey. induction items as [|i items IH]; [done|].
  cbn [forallb]. intros [Hi Hitems]%andb_prop.
  rewrite linesOf_cons, directiveCount_app, directiveCount_itemLines by done.
  rewrite fmap_cons. cbn [sum_list sum_list_with]. by rewrite IH.
Qed.

Lemma templateItems_keys enum c : forallb itemKeyOk (templateItems enum c) = true.
Proof. reflexivity. Qed.

Lemma directiveCount_render key enum c :
  plainKey key = true ->
  directiveCount key (renderLines enum c) =
  sum_list (itemCount key <$> templateItems enum c).
Proof.
  intros Hkey. apply directiveCount_linesOf; [done|apply templateItems_keys].
Qed.

Lemma directiveLine_linesOf items :
  forallb directiveItem items = true -> Forall directiveLine (linesOf items).
Proof.
  induction items as [|i items IH]; [constructor|].
  cbn [forallb]. intros [Hi Hitems]%andb_prop.
  rewrite linesOf_cons. apply Forall_app. split; [|by apply IH].
  destruct i as [name| |k v|k vs]; cbn [directiveItem itemLines] in *; try done.
  - repeat constructor. by exists k, v.
  - apply Forall_fmap, Forall_forall. intros v _. by exists k, v.
Qed.

Ltac count_lines :=
  rewrite directiveCount_render by reflexivity;
  cbn [templateItems execItems filesItems networkItems app fmap list_fmap
       itemCount sum_list sum_list_with String.eqb Ascii.eqb Bool.eqb
       id Nat.add];
  rewrite ?length_fmap.

(** C10: whatever the task configuration, the rendered text consists of the
    section [Exec], a blank line, the section [Files], a blank line and the
    section [Network], in this order, each being its header followed by
    directive lines only; every single-valued directive has exactly one line
    (also when its value is empty, as the bare line of [DropCapability] in
    the zero configuration); and every repeated directive has exactly one
    line per element of its list, hence no line when the list is empty. *)
Theorem C10_sections_and_directives (c : TaskConfig) :
  let ls := renderLines (map_to_list (Environment c)) c in
  render c = unlines ls /\
  (exists a b d,
      ls = "[Exec]" :: a ++ "" :: "[Files]" :: b ++ "" :: "[Network]" :: d /\
      Forall directiveLine a /\ Forall directiveLine b /\ Forall directiveLine d) /\
  Forall (fun k => directiveCount k ls = 1%nat) singleKeys /\
  In "DropCapability=" (renderLines [] zeroTaskConfig) /\
  directiveCount "Environment" ls = size (Environment c) /\
  directiveCount "Bind" ls = length (Bind c) /\
  directiveCount "BindReadOnly" ls = length (BindReadOnly c) /\
  directiveCount "TemporaryFileSystem" ls = length (TemporaryFileSystem c) /\
  directiveCount "Inaccessible" ls = length (Inaccessible c) /\
  directiveCount "Overlay" ls = length (Overlay c) /\
  directiveCount "OverlayReadOnly" ls = length (OverlayReadOnly c) /\
  directiveCount "VirtualEthernetExtra" ls = length (VirtualEthernetExtra c) /\
  directiveCount "Port" ls = length (Port c).
Proof.
  intros ls. subst ls. set (enum := map_to_list (Environment c)).
  assert (Hlen : length (sortEntries enum) = size (Environment c)).
  { unfold sortEntries. rewrite merge_sort_Permutation.
    subst enum. by rewrite length_map_to_list. }
  split; [exact (render_unlines enum c)|].
  split.
  { exists (linesOf (tail (execItems enum c))),
           (linesOf (tail (filesItems c))),
           (linesOf (tail (networkItems c))).
    split; [|split; [|split]];
      try (apply directiveLine_linesOf; reflexivity).
    unfold renderLines, templateItems.
    rewrite linesOf_app, linesOf_cons, linesOf_app, linesOf_cons.
    reflexivity. }
  split.
  { unfold singleKeys.
    repeat (apply Forall_cons; split; [count_lines; reflexivity|]).
    constructor. }
  split.
  { vm_compute. tauto. }
  repeat apply conj; count_lines; rewrite ?Hlen; lia.
Qed.

(** ** Selecting the lines of a directive *)

Lemma filter_hasKey_repeated key k vs :
  noEq key = true -> noEq k = true ->
  filter (fun l => hasKey key l = true) ((fun v => k +:+ "=" +:+ v) <$> vs) =
  if String.eqb key k then (fun v => k +:+ "=" +:+ v) <$> vs else [].
Proof.
  intros Hkey Hk.
  induction vs as [|v vs IH]; [by destruct (String.eqb key k)|].
  rewrite fmap_cons, filter_cons, hasKey_directive by done.
  destruct (String.eqb key k) eqn:E.
  - rewrite decide_True by done. by rewrite IH.
  - by rewrite decide_False by done.
Qed.

Lemma filter_hasKey_itemLines key i :
  plainKey key = true -> itemKeyOk i = true ->
  filter (fun l => hasKey key l = true) (itemLines i) = itemSelect key i.
Proof.
  intros Hkey Hi. pose proof Hkey as [Hk _]%andb_prop.
  destruct i as [name| |k v|k vs]; cbn [itemLines itemSelect itemKeyOk] in *.
  - rewrite filter_cons, hasKey_header by done. by rewrite decide_False by done.
  - rewrite filter_cons, hasKey_blank. by rewrite decide_False by done.
  - apply andb_prop in Hi as [Hi _].
    change [k +:+ "=" +:+ v] with ((fun v => k +:+ "=" +:+ v) <$> [v]).
    by rewrite filter_hasKey_repeated by done.
  - apply andb_prop in Hi as [Hi _]. by apply filter_hasKey_repeated.
Qed.

Lemma filter_hasKey_linesOf key items :
  plainKey key = true -> forallb itemKeyOk items = true ->
  filter (fun l => hasKey key l = true) (linesOf items) =
  concat (itemSelect key <$> items).
Proof.
  intros Hkey. induction items as [|i items IH]; [done|].
  cbn [forallb]. intros [Hi Hitems]%andb_prop.
  rewrite linesOf_cons, filter_app, filter_hasKey_itemLines by done.
  rewrite fmap_cons. cbn [concat]. by rewrite IH.
Qed.

Lemma In_single k v items :
  In (Single k v) items -> In (k +:+ "=" +:+ v) (linesOf items).
Proof.
  induction items as [|i items IH]; [done|].
  rewrite linesOf_cons. intros [->|Hin]; apply in_or_app.
  - left. by left.
  - right. by apply IH.
Qed.

Ltac find_item :=
  apply In_single; unfold templateItems, execItems, filesItems, networkItems;
  cbn [app In]; repeat first [left; reflexivity | right].

(** ** The environment is emitted in key order *)

Global Instance entry_le_trans : Transitive entry_le.
Proof. intros e1 e2 e3. unfold entry_le. apply transitivity. Qed.

Global Instance entry_le_total : Total entry_le.
Proof. intros e1 e2. unfold entry_le. apply total, _. Qed.

Lemma sortEntries_Permutation enum : sortEntries enum ≡ₚ enum.
Proof. apply merge_sort_Permutation. Qed.




Lemma environment_lines enum c :
  filter (fun l => hasKey "Environment" l = true) (renderLines enum c) =
  (fun e => "Environment=" +:+ e.1 +:+ "=" +:+ e.2) <$> sortEntries enum.
Proof.
  unfold renderLines.
  rewrite filter_hasKey_linesOf by reflexivity.
  cbn [templateItems execItems filesItems networkItems app fmap list_fmap
       itemSelect concat String.eqb Ascii.eqb Bool.eqb itemLines].
  rewrite app_nil_r, <-list_fmap_compose.
  apply list_fmap_ext. intros _ [k v] _. cbn.
  by rewrite <-!string_app_assoc.
Qed.






(** ** The test of the template *)

(** [TestTemplate] passes: the test data renders to [result]. *)
Lemma render_testData : render testData = result.
Proof. vm_compute. reflexivity. Qed.

(** C1: the test data renders to the [result] text of the test, which
    agrees with the described round trip on every line except one: the
    Interface line is [Interface=1 2 3], the joined Parameters, although the
    Interface list of the test data is empty; so the output differs from the
    described one, whose Interface line is empty. *)
Theorem C1_render_testData :
  render testData = result /\
  Interface testData = [] /\
  In "Interface=1 2 3" (renderLines (map_to_list (Environment testData)) testData) /\
  ~ In "Interface=" (renderLines (map_to_list (Environment testData)) testData) /\
  String.eqb (render testData) (unlines describedLines) = false.
Proof.
  split; [vm_compute; reflexivity|].
  split; [reflexivity|].
  split; [vm_compute; tauto|].
  split; [|vm_compute; reflexivity].
  vm_compute. intuition discriminate.
Qed.

(** ** Integer directives *)

Lemma parseInt_formatInt (z : Z) : parseInt (formatInt z) = Some z.
Proof.
  unfold parseInt, formatInt.
  rewrite NilZero.isi.
  - cbn. by rewrite DecimalZ.of_to.
  - destruct z as [|p|p]; cbn; try discriminate.
    intros [= H]. by apply DecimalPos.Unsigned.to_uint_nonnil in H.
  - destruct z as [|p|p]; cbn; try discriminate.
    intros [= H]. by apply DecimalPos.Unsigned.to_uint_nonnil in H.
Qed.

Lemma formatUint_formatInt (n : N) : formatUint n = formatInt (Z.of_N n).
Proof. by destruct n. Qed.

Lemma parseInt_formatUint (n : N) : parseInt (formatUint n) = Some (Z.of_N n).
Proof. rewrite formatUint_formatInt. apply parseInt_formatInt. Qed.

(** C7 as stated fails: the zero configuration, whose integer fields are
    unset, renders the lines [KillSignal=0] and [OOMScoreAdjust=0], and has
    no line with an empty value after these directives. *)
Lemma C7_unset_renders_zero :
  let ls := renderLines (map_to_list (Environment zeroTaskConfig)) zeroTaskConfig in
  render zeroTaskConfig = unlines ls /\
  In "KillSignal=0" ls /\ ~ In "KillSignal=" ls /\
  In "OOMScoreAdjust=0" ls /\ ~ In "OOMScoreAdjust=" ls.
Proof.
  split; [vm_compute; reflexivity|].
  split; [vm_compute; tauto|].
  split; [vm_compute; intuition discriminate|].
  split; [vm_compute; tauto|].
  vm_compute; intuition discriminate.
Qed.

(** C7, amended: KillSignal and OOMScoreAdjust always render as decimal
    text, each on exactly one line, and the text reads back as the value of
    the field; there is no unset sentinel, a zero (unset) field renders as
    the text [0]. *)
Theorem C7_integers_render_decimal (c : TaskConfig) :
  let ls := renderLines (map_to_list (Environment c)) c in
  render c = unlines ls /\
  In ("KillSignal=" +:+ formatUint (KillSignal c)) ls /\
  In ("OOMScoreAdjust=" +:+ formatInt (OOMScoreAdjust c)) ls /\
  directiveCount "KillSignal" ls = 1%nat /\
  directiveCount "OOMScoreAdjust" ls = 1%nat /\
  parseInt (formatUint (KillSignal c)) = Some (Z.of_N (KillSignal c)) /\
  parseInt (formatInt (OOMScoreAdjust c)) = Some (OOMScoreAdjust c) /\
  formatUint 0 = "0" /\ formatInt 0 = "0".
Proof.
  intros ls. subst ls. set (enum := map_to_list (Environment c)).
  split; [exact (render_unlines enum c)|].
  split.
  { change ("KillSignal=" +:+ formatUint (KillSignal c))
      with ("KillSignal" +:+ "=" +:+ formatUint (KillSignal c)).
    unfold renderLines. find_item. }
  split.
  { change ("OOMScoreAdjust=" +:+ formatInt (OOMScoreAdjust c))
      with ("OOMScoreAdjust" +:+ "=" +:+ formatInt (OOMScoreAdjust c)).
    unfold renderLines. find_item. }
  split; [count_lines; reflexivity|].
  split; [count_lines; reflexivity|].
  split; [apply parseInt_formatUint|].
  split; [apply parseInt_formatInt|].
  split; reflexivity.
Qed.

(** ** The machine name *)

Lemma replaceSlash_get (s : string) (i : nat) :
  String.get i (replaceSlash s) = replaceByte <$> String.get i s.
Proof.
  revert i. induction s as [|a s IH]; intros i; [done|].
  destruct i as [|i]; cbn; [done|]. apply IH.
Qed.

Lemma replaceSlash_length (s : string) :
  String.length (replaceSlash s) = String.length s.
Proof. induction s as [|a s IH]; cbn; [done|]. by rewrite IH. Qed.

(** Two appends with tails of the same length agree part by part. *)
Lemma string_app_inj_length (s1 s2 t1 t2 : string) :
  s1 +:+ t1 = s2 +:+ t2 -> String.length t1 = String.length t2 ->
  s1 = s2 /\ t1 = t2.
Proof.
  revert s2. induction s1 as [|a s1 IH]; intros [|b s2] Heq Hlen; push_app.
  - done.
  - subst t1. cbn [String.length] in Hlen.
    rewrite string_length_app in Hlen. lia.
  - subst t2. cbn [String.length] in Hlen.
    rewrite string_length_app in Hlen. lia.
  - injection Heq as -> Heq. destruct (IH _ Heq Hlen) as [-> ->]. done.
Qed.

Lemma machineName_inj_length (cfg1 cfg2 : drivers.TaskConfig) :
  String.length (drivers.AllocID cfg1) = String.length (drivers.AllocID cfg2) ->
  machineName cfg1 = machineName cfg2 ->
  drivers.AllocID cfg1 = drivers.AllocID cfg2.
Proof.
  unfold machineName. intros Hlen Heq.
  apply string_app_inj_length in Heq as [_ Heq].
  - by injection Heq.
  - push_app. cbn. by rewrite Hlen.
Qed.

(** Replacing [/] loses the difference between [/] and [_] in task
    names. *)
Lemma machineName_slash_underscore :
  machineName {| drivers.Name := "a/b"; drivers.AllocID := "c" |} =
  machineName {| drivers.Name := "a_b"; drivers.AllocID := "c" |}.
Proof. reflexivity. Qed.

(** C6 as stated fails: the task [a-b] with allocation ID [c] and the task
    [a] with allocation ID [b-c] have distinct allocation IDs and the same
    machine name, [a-b-c]. *)
Lemma C6_distinct_ids_same_name :
  drivers.AllocID {| drivers.Name := "a-b"; drivers.AllocID := "c" |} <>
  drivers.AllocID {| drivers.Name := "a"; drivers.AllocID := "b-c" |} /\
  machineName {| drivers.Name := "a-b"; drivers.AllocID := "c" |} = "a-b-c" /\
  machineName {| drivers.Name := "a"; drivers.AllocID := "b-c" |} = "a-b-c".
Proof. split; [discriminate|]. split; reflexivity. Qed.

(** C6, amended: the machine name is the task name with every [/]
    replaced by [_] (and every other byte kept), then [-], then the
    allocation ID. It is a function of these two fields, and distinct
    allocation IDs give distinct machine names when the task name is the
    same, and also across task names when the two IDs have the same length,
    as the UUIDs of Nomad do. *)
Theorem C6_machineName (cfg1 cfg2 : drivers.TaskConfig) :
  machineName cfg1 =
    replaceSlash (drivers.Name cfg1) +:+ "-" +:+ drivers.AllocID cfg1 /\
  String.length (replaceSlash (drivers.Name cfg1)) =
    String.length (drivers.Name cfg1) /\
  (forall i, String.get i (replaceSlash (drivers.Name cfg1)) =
             (fun b => if Ascii.eqb b "/" then "_"%char else b)
               <$> String.get i (drivers.Name cfg1)) /\
  (drivers.Name cfg1 = drivers.Name cfg2 ->
   drivers.AllocID cfg1 = drivers.AllocID cfg2 ->
   machineName cfg1 = machineName cfg2) /\
  (drivers.Name cfg1 = drivers.Name cfg2 ->
   drivers.AllocID cfg1 <> drivers.AllocID cfg2 ->
   machineName cfg1 <> machineName cfg2) /\
  (String.length (drivers.AllocID cfg1) = String.length (drivers.AllocID cfg2) ->
   drivers.AllocID cfg1 <> drivers.AllocID cfg2 ->
   machineName cfg1 <> machineName cfg2).
Proof.
  split; [reflexivity|].
  split; [apply replaceSlash_length|].
  split; [intros i; apply replaceSlash_get|].
  split; [by unfold machineName; intros -> ->|].
  split.
  - unfold machineName. intros -> Hne Heq. apply Hne.
    apply (inj (String.app _)) in Heq. by injection Heq.
  - intros Hlen Hne Heq. by apply Hne, machineName_inj_length.
Qed.

(** Two allocations of the task [web/api]. *)
Lemma C6_machineName_witness :
  machineName webTask = "web_api-a1" /\
  machineName webTask <>
  machineName {| drivers.Name := "web/api"; drivers.AllocID := "b2" |}.
Proof.
  destruct (C6_machineName webTask
              {| drivers.Name := "web/api"; drivers.AllocID := "b2" |})
    as (Hname & _ & _ & _ & Hsame & _).
  split.
  - rewrite Hname. reflexivity.
  - apply Hsame; [reflexivity|discriminate].
Defined.

(** ** The wait for the transfer *)

Lemma stillActive_step h id k ts :
  listTransfers h k = inr ts -> found ts id = true -> stillActive h id k.
Proof. intros Hl Hf. by exists ts. Qed.

(** The loop ends at the first answer that does not show the transfer,
    after one call per answer. *)
Lemma waitTransfer_ends h id r n : forall k fuel,
  (forall j, (k <= j < k + n)%nat -> stillActive h id j) ->
  endsAt h id (k + n) r ->
  (n < fuel)%nat ->
  waitTransfer fuel h id k = Some r.
Proof.
  induction n as [|n IH]; intros k fuel Hact Hend Hfuel.
  - destruct fuel as [|fuel]; [lia|].
    rewrite Nat.add_0_r in Hend. unfold endsAt in Hend. cbn [waitTransfer].
    destruct (listTransfers h k) as [err|ts]; [by subst|].
    by destruct Hend as [-> ->].
  - destruct fuel as [|fuel]; [lia|]. cbn [waitTransfer].
    destruct (Hact k ltac:(lia)) as (ts & -> & ->).
    apply IH; [|by rewrite Nat.add_succ_comm|lia].
    intros j Hj. apply Hact. lia.
Qed.

(** While every answer shows the transfer, the loop goes on. *)
Lemma waitTransfer_stuck h id :
  (forall j, stillActive h id j) ->
  forall fuel k, waitTransfer fuel h id k = None.
Proof.
  intros Hact fuel. induction fuel as [|fuel IH]; intros k; [done|].
  cbn [waitTransfer]. destruct (Hact k) as (ts & -> & ->). apply IH.
Qed.

(** A loop that has ended did so at some answer, all earlier ones showing
    the transfer. *)
Lemma waitTransfer_Some_inv h id r : forall fuel k,
  waitTransfer fuel h id k = Some r ->
  exists n, (n < fuel)%nat /\
            (forall j, (k <= j < k + n)%nat -> stillActive h id j) /\
            endsAt h id (k + n) r.
Proof.
  induction fuel as [|fuel IH]; intros k Hw; [done|].
  cbn [waitTransfer] in Hw.
  destruct (listTransfers h k) as [err|ts] eqn:Hl.
  - exists 0%nat. split; [lia|]. split; [intros j; lia|].
    rewrite Nat.add_0_r. unfold endsAt. rewrite Hl. congruence.
  - destruct (found ts id) eqn:Hf.
    + destruct (IH _ Hw) as (n & Hn & Hact & Hend).
      exists (S n). split; [lia|]. split.
      * intros j Hj. destruct (decide (j = k)) as [->|Hne].
        -- by eapply stillActive_step.
        -- apply Hact. lia.
      * by rewrite <-Nat.add_succ_comm.
    + exists 0%nat. split; [lia|]. split; [intros j; lia|].
      rewrite Nat.add_0_r. unfold endsAt. rewrite Hl. split; congruence.
Qed.

(** An answer that ends the loop is enough for the loop to end, at that
    answer or at an earlier one. *)
Lemma waitTransfer_terminates h id r n : forall k,
  endsAt h id (k + n) r -> exists fuel r', waitTransfer fuel h id k = Some r'.
Proof.
  induction n as [|n IH]; intros k Hend.
  - exists 1%nat, r. apply (waitTransfer_ends h id r 0); [intros j; lia|done|lia].
  - destruct (listTransfers h k) as [err|ts] eqn:Hl.
    { exists 1%nat, (Some err). cbn [waitTransfer]. by rewrite Hl. }
    destruct (found ts id) eqn:Hf.
    + rewrite <-Nat.add_succ_comm in Hend.
      destruct (IH _ Hend) as (fuel & r' & Hw).
      exists (S fuel), r'. cbn [waitTransfer]. by rewrite Hl, Hf.
    + exists 1%nat, None. cbn [waitTransfer]. by rewrite Hl, Hf.
Qed.

(** C3 as stated fails: on a host whose transfer list shows the transfer
    for ever, [CreateMachine] does not return, with no number of
    iterations; it does not fail with a timeout. *)
Lemma C3_busy_host_never_returns :
  ~ exists fuel r, CreateMachine fuel busyHost emptySys webTask zeroTaskConfig = Some r.
Proof.
  intros (fuel & r & Hrun). unfold CreateMachine in Hrun.
  cbn [pullRaw busyHost] in Hrun.
  rewrite (waitTransfer_stuck busyHost 1) in Hrun; [done|].
  intros j. by eexists.
Qed.

(** C3, amended: the wait has no backoff and no deadline. Once the pull is
    accepted, the loop calls [ListTransfers] until an answer is an error or
    does not show the transfer: an error at the first such answer makes
    [CreateMachine] return it with a nil machine and the system unchanged; an
    answer without the transfer ends the wait without error; the wait ends
    if and only if such an answer exists; and while every answer shows the
    transfer, [CreateMachine] does not return. *)
Theorem C3_wait_without_deadline (h : Host) (s : Sys)
    (cfg : drivers.TaskConfig) (taskConfig : TaskConfig) (id : N) :
  pullRaw h (Image taskConfig) (machineName cfg) = inr id ->
  ((forall j, stillActive h id j) ->
   forall fuel, CreateMachine fuel h s cfg taskConfig = None) /\
  (forall n err,
     (forall j, (j < n)%nat -> stillActive h id j) ->
     listTransfers h n = inl err ->
     forall fuel, (n < fuel)%nat ->
       CreateMachine fuel h s cfg taskConfig = Some (None, Some err, s)) /\
  (forall n,
     (forall j, (j < n)%nat -> stillActive h id j) ->
     endsAt h id n None ->
     forall fuel, (n < fuel)%nat -> waitTransfer fuel h id 0 = Some None) /\
  ((exists fuel r, waitTransfer fuel h id 0 = Some r) <->
   (exists n r, endsAt h id n r)).
Proof.
  intros Hpull. split; [|split; [|split; [|split]]].
  - intros Hact fuel. unfold CreateMachine. rewrite Hpull.
    by rewrite waitTransfer_stuck.
  - intros n err Hact Hl fuel Hfuel. unfold CreateMachine. rewrite Hpull.
    rewrite (waitTransfer_ends h id (Some err) n); [done| |unfold endsAt; cbn [Nat.add]; by rewrite Hl|done].
    intros j Hj. apply Hact. lia.
  - intros n Hact Hend fuel Hfuel.
    apply (waitTransfer_ends h id None n); [|done|done].
    intros j Hj. apply Hact. lia.
  - intros (fuel & r & Hw).
    destruct (waitTransfer_Some_inv _ _ _ _ _ Hw) as (n & _ & _ & Hend).
    by exists (0 + n)%nat, r.
  - intros (n & r & Hend). by apply (waitTransfer_terminates h id r n 0).
Qed.

(** On the host whose second listing fails, the error is returned. *)
Lemma C3_wait_without_deadline_witness :
  CreateMachine 2 listFailsHost emptySys webTask zeroTaskConfig =
  Some (None, Some "connection closed", emptySys).
Proof.
  destruct (C3_wait_without_deadline listFailsHost emptySys webTask
              zeroTaskConfig 1 eq_refl) as (_ & Herr & _).
  apply (Herr 1%nat "connection closed"); [|reflexivity|lia].
  intros j Hj. assert (j = 0%nat) as -> by lia.
  eexists. split; reflexivity.
Defined.

(** ** CreateMachine *)

(** The run in which every call succeeds: the result is [(nil, nil)]
    whatever the job result, which only decides whether an error is
    logged. *)
Lemma CreateMachine_activated h s cfg taskConfig id n fuel :
  pullRaw h (Image taskConfig) (machineName cfg) = inr id ->
  (forall j, (j < n)%nat -> stillActive h id j) ->
  endsAt h id n None ->
  osCreate h (unitPath cfg) = None ->
  fileWrite h (unitPath cfg) (render taskConfig) = None ->
  startUnit h (unitName cfg) "replace" = None ->
  (n < fuel)%nat ->
  CreateMachine fuel h s cfg taskConfig =
  Some (None, None,
        if String.eqb (jobResult h (unitName cfg)) "done"
        then putFile (unitPath cfg) (render taskConfig) s
        else logError "Start machine unit failed"
               (putFile (unitPath cfg) (render taskConfig) s)).
Proof.
  intros Hpull Hact Hend Hcreate Hwrite Hstart Hfuel.
  unfold CreateMachine. rewrite Hpull.
  rewrite (waitTransfer_ends h id None n); [| |done|done].
  - rewrite Hcreate. cbv zeta. rewrite Hwrite, Hstart.
    by destruct (String.eqb _ "done").
  - intros j Hj. apply Hact. lia.
Qed.

(** C4: what the code does with a job result other than [done]. When the
    pull, the wait, the unit file and [StartUnit] succeed and the job result
    is not [done], [CreateMachine] logs "Start machine unit failed" and
    returns a nil error: the failed start is reported as success. *)
Theorem C4_failed_job_returns_nil_error h s cfg taskConfig id n fuel :
  pullRaw h (Image taskConfig) (machineName cfg) = inr id ->
  (forall j, (j < n)%nat -> stillActive h id j) ->
  endsAt h id n None ->
  osCreate h (unitPath cfg) = None ->
  fileWrite h (unitPath cfg) (render taskConfig) = None ->
  startUnit h (unitName cfg) "replace" = None ->
  (n < fuel)%nat ->
  jobResult h (unitName cfg) <> "done" ->
  CreateMachine fuel h s cfg taskConfig =
  Some (None, None,
        logError "Start machine unit failed"
          (putFile (unitPath cfg) (render taskConfig) s)).
Proof.
  intros Hpull Hact Hend Hcreate Hwrite Hstart Hfuel Hjob.
  rewrite (CreateMachine_activated h s cfg taskConfig id n fuel) by done.
  by apply String.eqb_neq in Hjob as ->.
Qed.

(** The job of the unit ends as [failed]. *)
Lemma C4_failed_job_witness :
  CreateMachine 3 (okHost "failed") emptySys webTask zeroTaskConfig =
  Some (None, None,
        logError "Start machine unit failed"
          (putFile (unitPath webTask) (render zeroTaskConfig) emptySys)).
Proof.
  apply (C4_failed_job_returns_nil_error (okHost "failed") emptySys webTask
           zeroTaskConfig 1 2 3);
    try reflexivity; try lia; try discriminate.
  - intros j Hj. destruct j as [|[|j]]; [eexists; split; reflexivity..|lia].
  - split; reflexivity.
Defined.

(** C8: what the code returns when everything succeeds. When the pull,
    the wait, the unit file and [StartUnit] succeed and the job result is
    [done], [CreateMachine] returns a nil error and a nil machine: the
    result [m] is never assigned. *)
Theorem C8_success_returns_nil_machine h s cfg taskConfig id n fuel :
  pullRaw h (Image taskConfig) (machineName cfg) = inr id ->
  (forall j, (j < n)%nat -> stillActive h id j) ->
  endsAt h id n None ->
  osCreate h (unitPath cfg) = None ->
  fileWrite h (unitPath cfg) (render taskConfig) = None ->
  startUnit h (unitName cfg) "replace" = None ->
  (n < fuel)%nat ->
  jobResult h (unitName cfg) = "done" ->
  CreateMachine fuel h s cfg taskConfig =
  Some (None, None, putFile (unitPath cfg) (render taskConfig) s).
Proof.
  intros Hpull Hact Hend Hcreate Hwrite Hstart Hfuel Hjob.
  rewrite (CreateMachine_activated h s cfg taskConfig id n fuel) by done.
  by rewrite Hjob.
Qed.

(** Every call succeeds and the job is done. *)
Lemma C8_success_witness :
  CreateMachine 3 (okHost "done") emptySys webTask zeroTaskConfig =
  Some (None, None, putFile (unitPath webTask) (render zeroTaskConfig) emptySys).
Proof.
  apply (C8_success_returns_nil_machine (okHost "done") emptySys webTask
           zeroTaskConfig 1 2 3);
    try reflexivity; try lia.
  - intros j Hj. destruct j as [|[|j]]; [eexists; split; reflexivity..|lia].
  - split; reflexivity.
Defined.

(** Whatever the host, the machine returned is nil. *)
Lemma CreateMachine_nil_machine fuel h s cfg taskConfig m err s' :
  CreateMachine fuel h s cfg taskConfig = Some (m, err, s') -> m = None.
Proof.
  unfold CreateMachine. intros Hrun.
  repeat (match type of Hrun with
          | context [match ?x with _ => _ end] => destruct x
          end); congruence.
Qed.

(** C5 as stated fails: when [StartUnit] fails, [CreateMachine] returns
    the error while the unit file it has written is still in place. *)
Lemma C5_unit_file_left_behind :
  exists s',
    CreateMachine 1 startFailsHost emptySys webTask zeroTaskConfig =
      Some (None, Some "unit not found", s') /\
    unitPath webTask = "/etc/systemd/nspawn/web_api-a1" /\
    files emptySys !! unitPath webTask = None /\
    files s' !! unitPath webTask = Some (render zeroTaskConfig).
Proof.
  eexists. split; [reflexivity|]. split; [reflexivity|].
  split; [apply lookup_empty|]. cbn [files logError putFile].
  apply lookup_insert_eq.
Qed.

(** C5, amended: [CreateMachine] rolls nothing back. When it returns an
    error the machine is nil, and the system is as the failing step left it:
    unchanged if the pull or a listing failed, with unchanged files if
    [os.Create] failed, and with the unit file in place, holding what was
    written, if the write or [StartUnit] failed. *)
Theorem C5_no_rollback fuel h s cfg taskConfig m err s' :
  CreateMachine fuel h s cfg taskConfig = Some (m, Some err, s') ->
  m = None /\ afterFailure h s cfg taskConfig err s'.
Proof.
  intros Hrun. split; [by eapply CreateMachine_nil_machine|].
  unfold CreateMachine in Hrun. unfold afterFailure.
  destruct (pullRaw h (Image taskConfig) (machineName cfg)) as [e|id] eqn:Hpull.
  { left. by simplify_eq. }
  destruct (waitTransfer fuel h id 0) as [[e|]|] eqn:Hwait; [| |done].
  { right; left. simplify_eq.
    destruct (waitTransfer_Some_inv _ _ _ _ _ Hwait) as (n & _ & _ & Hend).
    unfold endsAt in Hend. cbn [Nat.add] in Hend.
    destruct (listTransfers h n) as [e|ts] eqn:Hl; [|by destruct Hend].
    exists id, n. by simplify_eq. }
  destruct (osCreate h (unitPath cfg)) as [e|] eqn:Hcreate.
  { right; right; left. by simplify_eq. }
  cbv zeta in Hrun.
  destruct (fileWrite h (unitPath cfg) (render taskConfig)) as [[n e]|] eqn:Hwrite.
  { right; right; right; left. simplify_eq. by exists n. }
  destruct (startUnit h (unitName cfg) "replace") as [e|] eqn:Hstart.
  { right; right; right; right. by simplify_eq. }
  by destruct (String.eqb _ "done").
Qed.

(** The failed [StartUnit] again. *)
Lemma C5_no_rollback_witness :
  afterFailure startFailsHost emptySys webTask zeroTaskConfig "unit not found"
    (logError "Create machine unit failed"
       (putFile (unitPath webTask) (render zeroTaskConfig) emptySys)).
Proof.
  apply (C5_no_rollback 1 startFailsHost emptySys webTask zeroTaskConfig None).
  reflexivity.
Defined.

(** ** The registry *)

(** C9: for a registered machine, [transition] accepts a state change
    exactly when it moves forward in the order Opening, Running, Closing, and
    then stores the new state; every other change is rejected with
    [InvalidStateTransition], in particular Running to Opening and every
    change out of Closing. *)
Theorem C9_transition_monotonic (r : gmap string Machine) (name : string)
    (m : Machine) (newState : MachineState) :
  r !! name = Some m ->
  (forall r', MachineRegistry.transition name newState r = inr r' ->
     (stateRank (State m) < stateRank newState)%nat /\
     r' = <[name := withState newState m]> r) /\
  ((stateRank (State m) < stateRank newState)%nat ->
   MachineRegistry.transition name newState r =
     inr (<[name := withState newState m]> r)) /\
  ((stateRank newState <= stateRank (State m))%nat ->
   MachineRegistry.transition name newState r = inl InvalidStateTransition) /\
  (State m = MachineStateRunning -> newState = MachineStateOpening ->
   MachineRegistry.transition name newState r = inl InvalidStateTransition) /\
  (State m = MachineStateClosing ->
   MachineRegistry.transition name newState r = inl InvalidStateTransition).
Proof.
  intros Hm. unfold MachineRegistry.transition. rewrite Hm.
  destruct (stateRank (State m) <? stateRank newState)%nat eqn:Hlt.
  - apply Nat.ltb_lt in Hlt. repeat apply conj.
    + intros r' [= <-]. done.
    + done.
    + lia.
    + intros Hs ->. rewrite Hs in Hlt. cbn in Hlt. lia.
    + intros Hs. rewrite Hs in Hlt. destruct newState; cbn in Hlt; lia.
  - apply Nat.ltb_ge in Hlt. repeat apply conj; [done|lia|done..].
Qed.

(** A running machine is not taken back to Opening. *)
Lemma C9_transition_monotonic_witness :
  MachineRegistry.transition "web_api-a1" MachineStateOpening
    {[ "web_api-a1" := webMachine MachineStateRunning ]} =
  inl InvalidStateTransition.
Proof.
  destruct (C9_transition_monotonic
              {[ "web_api-a1" := webMachine MachineStateRunning ]}
              "web_api-a1" (webMachine MachineStateRunning)
              MachineStateOpening) as (_ & _ & _ & Hback & _).
  - vm_compute. reflexivity.
  - apply Hback; reflexivity.
Defined.

(** * Further properties *)

(** ** What the template reads and writes *)

Ltac select_lines :=
  unfold renderLines; rewrite filter_hasKey_linesOf by reflexivity;
  cbn [templateItems execItems filesItems networkItems app fmap list_fmap
       itemSelect concat String.eqb Ascii.eqb Bool.eqb itemLines];
  rewrite ?app_nil_r.


Ltac text_lines Hls :=
  unfold render; rewrite (splitLines_renderWith _ _ Hls).

(** X2: when no line holds a line feed inside, the lines of the rendered
    text that belong to a repeated directive are its elements in the order
    of the list, one line each, with the element text as it is; an overlay
    stack is written as its components joined by colons. *)
Theorem X2_repeated_directives_in_order (c : TaskConfig) :
  Forall (fun l => nlFree l = true) (renderLines (map_to_list (Environment c)) c) ->
  let ls := splitLines (render c) in
  filter (fun l => hasKey "Bind" l = true) ls =
    (fun v => "Bind=" +:+ v) <$> Bind c /\
  filter (fun l => hasKey "BindReadOnly" l = true) ls =
    (fun v => "BindReadOnly=" +:+ v) <$> BindReadOnly c /\
  filter (fun l => hasKey "TemporaryFileSystem" l = true) ls =
    (fun v => "TemporaryFileSystem=" +:+ v) <$> TemporaryFileSystem c /\
  filter (fun l => hasKey "Inaccessible" l = true) ls =
    (fun v => "Inaccessible=" +:+ v) <$> Inaccessible c /\
  filter (fun l => hasKey "Overlay" l = true) ls =
    (fun vs => "Overlay=" +:+ join vs ":") <$> Overlay c /\
  filter (fun l => hasKey "OverlayReadOnly" l = true) ls =
    (fun vs => "OverlayReadOnly=" +:+ join vs ":") <$> OverlayReadOnly c /\
  filter (fun l => hasKey "VirtualEthernetExtra" l = true) ls =
    (fun v => "VirtualEthernetExtra=" +:+ v) <$> VirtualEthernetExtra c /\
  filter (fun l => hasKey "Port" l = true) ls =
    (fun v => "Port=" +:+ v) <$> Port c.
Proof.
  intros Hls ls. subst ls. text_lines Hls.
  repeat apply conj; select_lines;
    rewrite <-?list_fmap_compose; apply list_fmap_ext; intros _ v _;
    unfold compose; by rewrite <-string_app_assoc.
Qed.

(** The two overlay stacks of the test data. *)
Lemma X2_repeated_directives_witness :
  filter (fun l => hasKey "Overlay" l = true) (splitLines (render testData)) =
  ["Overlay=1:2:3"; "Overlay=2:4:6"].
Proof.
  destruct (X2_repeated_directives_in_order testData)
    as (_ & _ & _ & _ & Hoverlay & _).
  - vm_compute. repeat constructor.
  - rewrite Hoverlay. reflexivity.
Defined.

(** X3: when no line holds a line feed inside, each list-valued single
    directive has exactly one line in the rendered text, holding the joined
    list: a comma joins Parameters and CPUAffinity, a space joins
    Capability, DropCapability, SystemCallFilter, MACVLAN and IPVLAN. *)
Theorem X3_joined_directives (c : TaskConfig) :
  Forall (fun l => nlFree l = true) (renderLines (map_to_list (Environment c)) c) ->
  let ls := splitLines (render c) in
  filter (fun l => hasKey "Parameters" l = true) ls =
    ["Parameters=" +:+ join (Parameters c) ","] /\
  filter (fun l => hasKey "CPUAffinity" l = true) ls =
    ["CPUAffinity=" +:+ join (CPUAffinity c) ","] /\
  filter (fun l => hasKey "Capability" l = true) ls =
    ["Capability=" +:+ join (Capability c) " "] /\
  filter (fun l => hasKey "DropCapability" l = true) ls =
    ["DropCapability=" +:+ join (DropCapability c) " "] /\
  filter (fun l => hasKey "SystemCallFilter" l = true) ls =
    ["SystemCallFilter=" +:+ join (SystemCallFilter c) " "] /\
  filter (fun l => hasKey "MACVLAN" l = true) ls =
    ["MACVLAN=" +:+ join (MACVLAN c) " "] /\
  filter (fun l => hasKey "IPVLAN" l = true) ls =
    ["IPVLAN=" +:+ join (IPVLAN c) " "].
Proof.
  intros Hls ls. subst ls. text_lines Hls.
  repeat apply conj; select_lines; reflexivity.
Qed.

(** The parameters and the capabilities of the test data. *)
Lemma X3_joined_directives_witness :
  filter (fun l => hasKey "Parameters" l = true) (splitLines (render testData)) =
    ["Parameters=1,2,3"] /\
  filter (fun l => hasKey "Capability" l = true) (splitLines (render testData)) =
    ["Capability=1 2 3"].
Proof.
  destruct (X3_joined_directives testData)
    as (Hparameters & _ & Hcapability & _).
  - vm_compute. repeat constructor.
  - rewrite Hparameters, Hcapability. split; reflexivity.
Defined.

(** X4: when no line holds a line feed inside, the rendered text has 53
    lines that are always there (three headers, two blank lines, 48 single
    directives) and one more line per environment entry and per element of
    a repeated directive. *)
Theorem X4_line_count (c : TaskConfig) :
  Forall (fun l => nlFree l = true) (renderLines (map_to_list (Environment c)) c) ->
  length (splitLines (render c)) =
  (53 + size (Environment c)
   + length (Bind c) + length (BindReadOnly c)
   + length (TemporaryFileSystem c) + length (Inaccessible c)
   + length (Overlay c) + length (OverlayReadOnly c)
   + length (VirtualEthernetExtra c) + length (Port c))%nat.
Proof.
  intros Hls. text_lines Hls.
  assert (Hlen : length (sortEntries (map_to_list (Environment c))) =
                 size (Environment c)).
  { by rewrite sortEntries_Permutation, length_map_to_list. }
  unfold renderLines, linesOf, templateItems, execItems, filesItems, networkItems.
  cbn [app fmap list_fmap itemLines concat].
  repeat (cbn [length app]; rewrite ?length_app, ?length_fmap).
  rewrite Hlen. lia.
Qed.

(** The test data: 53 lines, two environment entries, two overlays. *)
Lemma X4_line_count_witness :
  length (splitLines (render testData)) = 57%nat.
Proof.
  rewrite (X4_line_count testData).
  - vm_compute. reflexivity.
  - vm_compute. repeat constructor.
Defined.

(** ** strings.Join *)

Lemma join_cons (x y : string) (l : list string) (sep : string) :
  join (x :: y :: l) sep = x +:+ sep +:+ join (y :: l) sep.
Proof. reflexivity. Qed.

(** X5: [join] does not escape the separator: an element that contains
    the separator reads as two elements, so two different lists can give the
    same directive value. *)
Theorem X5_join_separator_not_escaped (l1 l2 : list string) (x y sep : string) :
  join (l1 ++ (x +:+ sep +:+ y) :: l2) sep = join (l1 ++ x :: y :: l2) sep.
Proof.
  induction l1 as [|a l1 IH].
  - cbn [app]. destruct l2 as [|z l2].
    + reflexivity.
    + rewrite !join_cons. by rewrite !string_app_assoc.
  - destruct l1 as [|b l1]; cbn [app] in *; rewrite !join_cons; by rewrite IH.
Qed.

(** The length of a joined list is the sum of the lengths of its
    elements plus one separator between each two neighbours. *)
Lemma join_length (elems : list string) (sep : string) :
  String.length (join elems sep) =
  (sum_list (String.length <$> elems)
   + (length elems - 1) * String.length sep)%nat.
Proof.
  induction elems as [|x [|y l] IH].
  - reflexivity.
  - cbn. lia.
  - rewrite join_cons, !string_length_app, IH.
    cbn [fmap list_fmap sum_list sum_list_with length id]. lia.
Qed.

(** ** Reading the output back *)

(** A line [key=value] with no [=] in the key has one reading. *)
Lemma entry_line_inj (k1 k2 v1 v2 : string) :
  noEq k1 = true -> noEq k2 = true ->
  k1 +:+ "=" +:+ v1 = k2 +:+ "=" +:+ v2 -> k1 = k2 /\ v1 = v2.
Proof.
  revert k2. induction k1 as [|a k1 IH]; intros [|b k2] H1 H2 Heq;
    cbn [noEq] in H1, H2; push_app.
  - by injection Heq.
  - injection Heq as <- _. by apply andb_prop in H2 as [? _].
  - injection Heq as -> _. by apply andb_prop in H1 as [? _].
  - injection Heq as -> Heq.
    apply andb_prop in H1 as [_ H1]. apply andb_prop in H2 as [_ H2].
    by destruct (IH _ H1 H2 Heq) as [-> ->].
Qed.

Lemma environment_entries_inj (l1 l2 : list (string * string)) :
  Forall (fun e => noEq e.1 = true) l1 ->
  Forall (fun e => noEq e.1 = true) l2 ->
  (fun e => "Environment=" +:+ e.1 +:+ "=" +:+ e.2) <$> l1 =
  (fun e => "Environment=" +:+ e.1 +:+ "=" +:+ e.2) <$> l2 ->
  l1 = l2.
Proof.
  revert l2. induction l1 as [|[k1 v1] l1 IH]; intros [|[k2 v2] l2] H1 H2 Heq;
    try done.
  rewrite !fmap_cons in Heq. injection Heq as Hhd Htl.
  apply Forall_cons in H1 as [Hk1 H1]. apply Forall_cons in H2 as [Hk2 H2].
  apply (inj (String.app _)) in Hhd. cbn [fst snd] in Hhd, Hk1, Hk2.
  destruct (entry_line_inj _ _ _ _ Hk1 Hk2 Hhd) as [-> ->].
  f_equal. by apply IH.
Qed.

(** Two outputs without line feeds inside their lines are equal only if
    their lines are. *)
Lemma render_eq_lines (c1 c2 : TaskConfig) :
  Forall (fun l => nlFree l = true) (renderLines (map_to_list (Environment c1)) c1) ->
  Forall (fun l => nlFree l = true) (renderLines (map_to_list (Environment c2)) c2) ->
  render c1 = render c2 ->
  renderLines (map_to_list (Environment c1)) c1 =
  renderLines (map_to_list (Environment c2)) c2.
Proof.
  intros Hls1 Hls2 Heq. apply (f_equal splitLines) in Heq. unfold render in Heq.
  by rewrite (splitLines_renderWith _ _ Hls1), (splitLines_renderWith _ _ Hls2)
    in Heq.
Qed.

(** X7: when no environment key contains [=] and no line holds a line feed
    inside, the environment can be read back from the rendered text: two
    configurations that render to the same text have the same environment
    map. *)
Theorem X7_environment_read_back (c1 c2 : TaskConfig) :
  (forall k v, Environment c1 !! k = Some v -> noEq k = true) ->
  (forall k v, Environment c2 !! k = Some v -> noEq k = true) ->
  Forall (fun l => nlFree l = true) (renderLines (map_to_list (Environment c1)) c1) ->
  Forall (fun l => nlFree l = true) (renderLines (map_to_list (Environment c2)) c2) ->
  render c1 = render c2 ->
  Environment c1 = Environment c2.
Proof.
  intros H1 H2 Hls1 Hls2 Heq.
  apply (render_eq_lines c1 c2 Hls1 Hls2) in Heq.
  apply (f_equal (filter (fun l => hasKey "Environment" l = true))) in Heq.
  rewrite !environment_lines in Heq.
  apply map_to_list_inj.
  rewrite <-(sortEntries_Permutation (map_to_list (Environment c1))).
  rewrite <-(sortEntries_Permutation (map_to_list (Environment c2))).
  apply environment_entries_inj in Heq; [by rewrite Heq| |].
  - apply Forall_forall. intros [k v] Hin.
    rewrite sortEntries_Permutation in Hin.
    apply elem_of_map_to_list in Hin. by eapply H1.
  - apply Forall_forall. intros [k v] Hin.
    rewrite sortEntries_Permutation in Hin.
    apply elem_of_map_to_list in Hin. by eapply H2.
Qed.

Ltac keys_noEq :=
  let k := fresh "k" in let v := fresh "v" in let Hkv := fresh "Hkv" in
  intros k v Hkv; apply elem_of_map_to_list in Hkv; vm_compute in Hkv;
  repeat (apply elem_of_cons in Hkv as [[= -> ->]|Hkv]; [reflexivity|]);
  by apply elem_of_nil in Hkv.

(** The test data, and the test data with its environment built the other
    way round and another image and interface list: the texts are the same,
    and so are the maps. *)
Lemma X7_environment_read_back_witness :
  Environment testData = <["1" := "2"]> (<["a" := "b"]> ∅).
Proof.
  change (Environment testData =
          Environment (withEnvironment (<["1" := "2"]> (<["a" := "b"]> ∅))
                         (withImageInterface "busybox" ["eth0"] testData))).
  apply (X7_environment_read_back testData
           (withEnvironment (<["1" := "2"]> (<["a" := "b"]> ∅))
              (withImageInterface "busybox" ["eth0"] testData))).
  - keys_noEq.
  - keys_noEq.
  - vm_compute. repeat constructor.
  - vm_compute. repeat constructor.
  - vm_compute. reflexivity.
Defined.

(** Without that condition the reading is ambiguous: the entry [a=b] with
    value [c] and the entry [a] with value [b=c] give the same line. *)
Lemma environment_line_ambiguous :
  rangeEnvironment [("a=b", "c")] = rangeEnvironment [("a", "b=c")].
Proof. reflexivity. Qed.

(** X8: when no line of the template carries a line feed in its value,
    cutting the rendered text at the line feeds gives back exactly the lines
    of the template, so the text can be read line by line; and the text is
    these lines, each ended by one line feed, the last one included. *)
Theorem X8_text_splits_into_lines (c : TaskConfig) :
  Forall (fun l => nlFree l = true) (renderLines (map_to_list (Environment c)) c) ->
  splitLines (render c) = renderLines (map_to_list (Environment c)) c /\
  unlines (splitLines (render c)) = render c.
Proof.
  intros Hls. unfold render.
  rewrite (splitLines_renderWith _ _ Hls). split; [done|].
  symmetry. exact (render_unlines _ c).
Qed.

Lemma X8_text_splits_into_lines_witness :
  splitLines (render testData) =
    renderLines (map_to_list (Environment testData)) testData /\
  unlines (splitLines (render testData)) = render testData.
Proof.
  apply X8_text_splits_into_lines.
  vm_compute. repeat constructor.
Defined.

(** ** Machine names, unit files and unit names *)

Lemma hasSlash_app (a b : string) : hasSlash (a +:+ b) = hasSlash a || hasSlash b.
Proof.
  induction a as [|x a IH]; [done|].
  rewrite string_app_cons. cbn [hasSlash]. by rewrite IH, orb_assoc.
Qed.

Lemma hasSlash_replaceSlash (s : string) : hasSlash (replaceSlash s) = false.
Proof.
  induction s as [|x s IH]; [done|].
  cbn [replaceSlash hasSlash]. rewrite IH, orb_false_r.
  unfold replaceByte. by destruct (Ascii.eqb x "/") eqn:E.
Qed.

(** Cancelling a common tail. *)
Lemma string_app_inv_tail (a b t : string) : a +:+ t = b +:+ t -> a = b.
Proof. intros Heq. by apply string_app_inj_length in Heq as [-> _]. Qed.

(** X9: only the task name is cleaned of [/]: the machine name, and with
    it the unit file name, holds a [/] exactly when the allocation ID does. *)
Theorem X9_machineName_slash (cfg : drivers.TaskConfig) :
  hasSlash (machineName cfg) = hasSlash (drivers.AllocID cfg).
Proof.
  unfold machineName. rewrite !hasSlash_app, hasSlash_replaceSlash.
  reflexivity.
Qed.

(** X10: within one allocation, two tasks get the same machine name
    exactly when their names agree after the replacement of [/] by [_]; the
    replacement changes nothing when applied again. *)
Theorem X10_same_allocation_collisions (cfg1 cfg2 : drivers.TaskConfig) :
  drivers.AllocID cfg1 = drivers.AllocID cfg2 ->
  (machineName cfg1 = machineName cfg2 <->
   replaceSlash (drivers.Name cfg1) = replaceSlash (drivers.Name cfg2)) /\
  replaceSlash (replaceSlash (drivers.Name cfg1)) = replaceSlash (drivers.Name cfg1).
Proof.
  intros Hid. split.
  - unfold machineName. rewrite Hid. split.
    + apply string_app_inv_tail.
    + by intros ->.
  - induction (drivers.Name cfg1) as [|x s IH]; [done|].
    cbn [replaceSlash]. rewrite IH. f_equal.
    unfold replaceByte. by destruct (Ascii.eqb x "/") eqn:E; [|rewrite E].
Qed.

(** The tasks [web/api] and [web_api] of allocation [a1]. *)
Lemma X10_same_allocation_collisions_witness :
  machineName webTask =
  machineName {| drivers.Name := "web_api"; drivers.AllocID := "a1" |}.
Proof.
  destruct (X10_same_allocation_collisions webTask
              {| drivers.Name := "web_api"; drivers.AllocID := "a1" |} eq_refl)
    as [[_ Hsame] _].
  apply Hsame. reflexivity.
Defined.

(** X11: the unit file path and the unit name are in one-to-one
    correspondence with the machine name: two tasks share the file, or the
    unit, exactly when they share the machine name. *)
Theorem X11_unit_path_and_name (cfg1 cfg2 : drivers.TaskConfig) :
  (unitPath cfg1 = unitPath cfg2 <-> machineName cfg1 = machineName cfg2) /\
  (unitName cfg1 = unitName cfg2 <-> machineName cfg1 = machineName cfg2).
Proof.
  unfold unitPath, unitName. split; split; try (by intros ->).
  - apply (inj (String.app _)).
  - intros Heq. apply (inj (String.app _)) in Heq.
    by apply string_app_inv_tail in Heq.
Qed.

(** ** What CreateMachine changes *)

Ltac run_cases H :=
  unfold CreateMachine in H; cbv zeta in H;
  repeat match type of H with
         | context [match ?x with _ => _ end] => destruct x eqn:?
         end;
  simplify_eq.

(** X12: of the unit files under [/etc/systemd/nspawn], [CreateMachine]
    touches the one of its machine only: whatever the outcome, the unit file
    of every other name holds what it held before. *)
Theorem X12_other_files_untouched fuel h s cfg taskConfig m err s' (name : string) :
  CreateMachine fuel h s cfg taskConfig = Some (m, err, s') ->
  name <> machineName cfg ->
  files s' !! ("/etc/systemd/nspawn/" +:+ name) =
  files s !! ("/etc/systemd/nspawn/" +:+ name).
Proof.
  intros Hrun Hname.
  assert (Hp : "/etc/systemd/nspawn/" +:+ name <> unitPath cfg).
  { unfold unitPath. intros Heq. by apply (inj (String.app _)) in Heq. }
  run_cases Hrun; cbn [files logError putFile];
    by rewrite ?lookup_insert_ne.
Qed.

(** The unit file of another machine, next to the one of [web/api]. *)
Lemma X12_other_files_untouched_witness :
  files (putFile (unitPath webTask) (render zeroTaskConfig) emptySys)
    !! ("/etc/systemd/nspawn/" +:+ "db-a1") =
  files emptySys !! ("/etc/systemd/nspawn/" +:+ "db-a1").
Proof.
  apply (X12_other_files_untouched 3 (okHost "done") emptySys webTask
           zeroTaskConfig None None); [reflexivity|discriminate].
Defined.

(** X13: [CreateMachine] only adds to the error log, at most one message
    per call; and when it returns a nil error, a message was added exactly
    when the job result was not [done]. *)
Theorem X13_log_grows_by_at_most_one fuel h s cfg taskConfig m err s' :
  CreateMachine fuel h s cfg taskConfig = Some (m, err, s') ->
  exists msgs,
    logged s' = logged s ++ msgs /\
    (length msgs <= 1)%nat /\
    (err = None -> (msgs = [] <-> jobResult h (unitName cfg) = "done")).
Proof.
  intros Hrun. run_cases Hrun; cbn [logged logError putFile].
  all: first
    [ exists []; rewrite app_nil_r; split; [done|]; split; [cbn; lia|];
      intros ?; first [done | split; [intros _; by apply String.eqb_eq|done]]
    | eexists [_]; split; [done|]; split; [cbn; lia|];
      intros ?; first [done | split; [done|];
                       intros Hjob%String.eqb_eq; congruence] ].
Qed.

Lemma X13_log_grows_by_at_most_one_witness :
  exists msgs,
    logged (logError "Start machine unit failed"
              (putFile (unitPath webTask) (render zeroTaskConfig) emptySys)) =
      logged emptySys ++ msgs /\
    (length msgs <= 1)%nat /\
    ((None : option error) = None ->
     (msgs = [] <-> jobResult (okHost "failed") (unitName webTask) = "done")).
Proof.
  apply (X13_log_grows_by_at_most_one 3 (okHost "failed") emptySys webTask
           zeroTaskConfig None None).
  reflexivity.
Defined.

(** After a nil error the unit file holds the rendered text. *)
Lemma CreateMachine_success_files fuel h s cfg taskConfig m s' :
  CreateMachine fuel h s cfg taskConfig = Some (m, None, s') ->
  files s' = <[unitPath cfg := render taskConfig]> (files s).
Proof. intros Hrun. by run_cases Hrun. Qed.

(** X14: a nil error means that every call to the host succeeded: the
    pull was accepted, the wait ended on an answer without the transfer
    after answers that all showed it, the unit file was created and written
    and [StartUnit] accepted the request; and the unit file then holds
    exactly the rendered configuration, whatever it held before. *)
Theorem X14_nil_error_means_all_calls_succeeded fuel h s cfg taskConfig m s' :
  CreateMachine fuel h s cfg taskConfig = Some (m, None, s') ->
  (exists id n,
     pullRaw h (Image taskConfig) (machineName cfg) = inr id /\
     (n < fuel)%nat /\
     (forall j, (j < n)%nat -> stillActive h id j) /\
     endsAt h id n None) /\
  osCreate h (unitPath cfg) = None /\
  fileWrite h (unitPath cfg) (render taskConfig) = None /\
  startUnit h (unitName cfg) "replace" = None /\
  files s' !! unitPath cfg = Some (render taskConfig).
Proof.
  intros Hrun.
  assert (Hfiles := CreateMachine_success_files _ _ _ _ _ _ _ Hrun).
  unfold CreateMachine in Hrun. cbv zeta in Hrun.
  destruct (pullRaw h (Image taskConfig) (machineName cfg)) as [e|id] eqn:Hpull;
    [done|].
  destruct (waitTransfer fuel h id 0) as [[e|]|] eqn:Hwait; [done| |done].
  destruct (osCreate h (unitPath cfg)) as [e|] eqn:Hcreate; [done|].
  destruct (fileWrite h (unitPath cfg) (render taskConfig)) as [[k e]|] eqn:Hwrite;
    [done|].
  destruct (startUnit h (unitName cfg) "replace") as [e|] eqn:Hstart; [done|].
  destruct (waitTransfer_Some_inv _ _ _ _ _ Hwait) as (n & Hn & Hact & Hend).
  split; [|repeat apply conj; try done].
  - exists id, n. repeat apply conj; try done.
    intros j Hj. apply Hact. lia.
  - rewrite Hfiles. apply lookup_insert_eq.
Qed.

Lemma X14_nil_error_witness :
  osCreate (okHost "failed") (unitPath webTask) = None /\
  files (logError "Start machine unit failed"
           (putFile (unitPath webTask) (render zeroTaskConfig) emptySys))
    !! unitPath webTask = Some (render zeroTaskConfig).
Proof.
  destruct (X14_nil_error_means_all_calls_succeeded 3 (okHost "failed")
              emptySys webTask zeroTaskConfig None _ eq_refl)
    as (_ & Hcreate & _ & _ & Hfile).
  by split.
Defined.

(** X15: two calls that both return a nil error, one after the other:
    the unit file of the second task holds its rendered configuration, and
    the unit file of the first task still holds the first rendering unless
    both tasks have the same machine name, in which case the second call has
    replaced it. *)
Theorem X15_second_call_keeps_or_replaces
    fuel1 fuel2 h1 h2 s0 s1 s2 cfg1 cfg2 taskConfig1 taskConfig2 m1 m2 :
  CreateMachine fuel1 h1 s0 cfg1 taskConfig1 = Some (m1, None, s1) ->
  CreateMachine fuel2 h2 s1 cfg2 taskConfig2 = Some (m2, None, s2) ->
  files s2 !! unitPath cfg2 = Some (render taskConfig2) /\
  files s2 !! unitPath cfg1 =
    Some (if decide (machineName cfg1 = machineName cfg2)
          then render taskConfig2 else render taskConfig1).
Proof.
  intros Hrun1%CreateMachine_success_files Hrun2%CreateMachine_success_files.
  rewrite Hrun2, Hrun1. split; [apply lookup_insert_eq|].
  destruct (decide (machineName cfg1 = machineName cfg2)) as [Heq|Hne].
  - unfold unitPath. rewrite Heq. apply lookup_insert_eq.
  - rewrite lookup_insert_ne, lookup_insert_eq; [done|].
    unfold unitPath. intros Heq. by apply (inj (String.app _)) in Heq.
Qed.

(** The task [web/api] and then the task [db] of the same allocation. *)
Lemma X15_second_call_witness :
  let dbTask := {| drivers.Name := "db"; drivers.AllocID := "a1" |} in
  let s1 := putFile (unitPath webTask) (render testData) emptySys in
  let s2 := putFile (unitPath dbTask) (render zeroTaskConfig) s1 in
  files s2 !! unitPath dbTask = Some (render zeroTaskConfig) /\
  files s2 !! unitPath webTask =
    Some (if decide (machineName webTask = machineName dbTask)
          then render zeroTaskConfig else render testData).
Proof.
  intros dbTask s1 s2.
  apply (X15_second_call_keeps_or_replaces 3 3 (okHost "done") (okHost "done")
           emptySys s1 s2 webTask dbTask testData zeroTaskConfig None None);
    reflexivity.
Defined.

(** ** SetConfig *)

(** X16: [SetConfig] fails exactly when the plugin configuration is not
    empty and the decoder rejects it; it then returns the decoder's error
    and leaves the driver as it was, the agent configuration of the request
    included. *)
Theorem X16_SetConfig_failure (decode : list N -> error + Config)
    (d : Driver) (cfg : base.Config) (err : error) (d' : Driver) :
  SetConfig decode d cfg = (Some err, d') <->
  (base.PluginConfig cfg <> [] /\ decode (base.PluginConfig cfg) = inl err /\ d' = d).
Proof.
  unfold SetConfig. destruct (base.PluginConfig cfg) as [|b bs] eqn:Hbytes.
  - cbn. split.
    + destruct (base.AgentConfig' cfg); intros [= ].
    + by intros [? _].
  - cbn [length Nat.eqb]. destruct (decode (b :: bs)) as [e|c].
    + split; [intros [= -> ->]; by repeat split|]. by intros (_ & [= ->] & ->).
    + split; [destruct (base.AgentConfig' cfg); intros [= ]|].
      by intros (_ & [= ] & _).
Qed.

(** X17: with an empty plugin configuration [SetConfig] does not consult
    the decoder and cannot fail: the driver configuration becomes the zero
    [Config], with [Enabled] false, whatever it was before. *)
Theorem X17_SetConfig_empty_plugin_config (decode : list N -> error + Config)
    (d : Driver) (cfg : base.Config) :
  base.PluginConfig cfg = [] ->
  exists d',
    SetConfig decode d cfg = (None, d') /\
    Enabled (config d') = false /\
    nomadConfig d' =
      match base.AgentConfig' cfg with
      | Some agent => base.Driver agent
      | None => nomadConfig d
      end.
Proof.
  intros Hbytes. unfold SetConfig. rewrite Hbytes. cbn [length Nat.eqb].
  destruct (base.AgentConfig' cfg); eexists; by repeat split.
Qed.

(** An enabled driver is given an empty plugin configuration. *)
Lemma X17_SetConfig_empty_witness :
  exists d',
    SetConfig sampleDecode
      {| config := {| Enabled := true |}; nomadConfig := None |}
      {| base.ApiVersion := "v0.1.0"; base.PluginConfig := [];
         base.AgentConfig' := None |} = (None, d') /\
    Enabled (config d') = false /\
    nomadConfig d' = None.
Proof.
  apply (X17_SetConfig_empty_plugin_config sampleDecode
           {| config := {| Enabled := true |}; nomadConfig := None |}
           {| base.ApiVersion := "v0.1.0"; base.PluginConfig := [];
              base.AgentConfig' := None |}).
  reflexivity.
Defined.

(** X18: a successful [SetConfig] forgets the previous driver
    configuration: the new [config] depends on the request only, and so does
    the new [nomadConfig] when the request carries an agent configuration;
    without one, [nomadConfig] is kept. *)
Theorem X18_SetConfig_success (decode : list N -> error + Config)
    (d1 d2 d1' : Driver) (cfg : base.Config) :
  SetConfig decode d1 cfg = (None, d1') ->
  exists d2',
    SetConfig decode d2 cfg = (None, d2') /\
    config d2' = config d1' /\
    (is_Some (base.AgentConfig' cfg) -> d2' = d1') /\
    (base.AgentConfig' cfg = None ->
     nomadConfig d1' = nomadConfig d1 /\ nomadConfig d2' = nomadConfig d2).
Proof.
  unfold SetConfig.
  destruct (if (length (base.PluginConfig cfg) =? 0)%nat
            then inr {| Enabled := false |}
            else decode (base.PluginConfig cfg)) as [e|c]; [done|].
  destruct (base.AgentConfig' cfg) as [agent|]; intros [= <-];
    eexists; (split; [done|]); cbn; repeat split; try done.
Qed.

(** A fresh driver and an enabled one receive the same request, with an
    empty plugin configuration and no agent configuration. *)
Lemma X18_SetConfig_success_witness :
  exists d2',
    SetConfig sampleDecode
      {| config := {| Enabled := true |};
         nomadConfig := Some {| base.ClientMaxPort := 14512;
                                base.ClientMinPort := 14000 |} |}
      {| base.ApiVersion := "v0.1.0"; base.PluginConfig := [];
         base.AgentConfig' := None |} = (None, d2') /\
    Enabled (config d2') = false /\
    nomadConfig d2' = Some {| base.ClientMaxPort := 14512;
                              base.ClientMinPort := 14000 |}.
Proof.
  destruct (X18_SetConfig_success sampleDecode NewSystemdNSpawnDriver
              {| config := {| Enabled := true |};
                 nomadConfig := Some {| base.ClientMaxPort := 14512;
                                        base.ClientMinPort := 14000 |} |}
              NewSystemdNSpawnDriver
              {| base.ApiVersion := "v0.1.0"; base.PluginConfig := [];
                 base.AgentConfig' := None |} eq_refl)
    as (d2' & Hrun & Hconfig & _ & Hkeep).
  exists d2'. split; [done|]. split; [by rewrite Hconfig|].
  by destruct (Hkeep eq_refl) as [_ ->].
Defined.

(** ** Fields that can be read back *)

Lemma onoff_inj (b1 b2 : bool) : onoff b1 = onoff b2 -> b1 = b2.
Proof. by destruct b1, b2. Qed.

Lemma formatInt_inj (z1 z2 : Z) : formatInt z1 = formatInt z2 -> z1 = z2.
Proof.
  intros Heq. apply (f_equal parseInt) in Heq.
  rewrite !parseInt_formatInt in Heq. by injection Heq.
Qed.

Lemma formatUint_inj (n1 n2 : N) : formatUint n1 = formatUint n2 -> n1 = n2.
Proof.
  rewrite !formatUint_formatInt. intros Heq%formatInt_inj. lia.
Qed.

Lemma directive_fmap_inj (key : string) (l1 l2 : list string) :
  (fun v => key +:+ v) <$> l1 = (fun v => key +:+ v) <$> l2 -> l1 = l2.
Proof.
  revert l2. induction l1 as [|x l1 IH]; intros [|y l2] Heq; try done.
  rewrite !fmap_cons in Heq. injection Heq as Hhd Htl.
  apply (inj (String.app _)) in Hhd. subst. f_equal. by apply IH.
Qed.

(** The lines of one directive, in two outputs with the same lines. *)
Ltac same_lines H key :=
  let Hk := fresh "Hk" in
  pose proof (f_equal (filter (fun l => hasKey key l = true)) H) as Hk;
  unfold renderLines in Hk;
  rewrite !filter_hasKey_linesOf in Hk by reflexivity;
  cbn [templateItems execItems filesItems networkItems app fmap list_fmap
       itemSelect concat String.eqb Ascii.eqb Bool.eqb itemLines] in Hk;
  rewrite ?app_nil_r in Hk.

Ltac same_single H key :=
  same_lines H key;
  match goal with
  | Hk : [_] = [_] |- _ =>
      injection Hk as Hk; apply (inj (String.app "")) in Hk;
      first [apply onoff_inj in Hk | apply formatUint_inj in Hk
            | apply formatInt_inj in Hk | idtac]
  end.

Ltac same_repeated H key :=
  same_lines H key;
  match goal with
  | Hk : _ <$> _ = _ <$> _ |- _ =>
      rewrite !(list_fmap_ext (fun v => key +:+ "=" +:+ v)
                              (fun v => (key +:+ "=") +:+ v)) in Hk
        by (intros; by rewrite string_app_assoc);
      apply directive_fmap_inj in Hk
  end.

(** X19: when no line holds a line feed inside, the booleans, the two
    integers, the plain string fields and the lists of the unjoined repeated
    directives can be read back from the rendered text: two configurations
    that render to the same text agree on all of them. *)
Theorem X19_plain_fields_read_back (c1 c2 : TaskConfig) :
  Forall (fun l => nlFree l = true) (renderLines (map_to_list (Environment c1)) c1) ->
  Forall (fun l => nlFree l = true) (renderLines (map_to_list (Environment c2)) c2) ->
  render c1 = render c2 ->
  boolFields c1 = boolFields c2 /\
  KillSignal c1 = KillSignal c2 /\
  OOMScoreAdjust c1 = OOMScoreAdjust c2 /\
  stringFields c1 = stringFields c2 /\
  plainListFields c1 = plainListFields c2.
Proof.
  intros Hls1 Hls2 H. apply (render_eq_lines c1 c2 Hls1 Hls2) in H.
  same_single H "Boot". same_single H "Ephemeral". same_single H "ProcessTwo".
  same_single H "NoNewPrivileges". same_single H "NotifyReady".
  same_single H "ReadOnly". same_single H "PrivateUsersChown".
  same_single H "Private". same_single H "VirtualEthernet".
  same_single H "KillSignal". same_single H "OOMScoreAdjust".
  same_single H "User". same_single H "WorkingDirectory".
  same_single H "PivotRoot". same_single H "Personality".
  same_single H "MachineID". same_single H "PrivateUsers".
  same_single H "LimitCPU". same_single H "LimitFSIZE".
  same_single H "LimitDATA". same_single H "LimitSTACK".
  same_single H "LimitCORE". same_single H "LimitRSS".
  same_single H "LimitNOFILE". same_single H "LimitAS".
  same_single H "LimitNPROC". same_single H "LimitMEMLOCK".
  same_single H "LimitLOCKS". same_single H "LimitSIGPENDING".
  same_single H "LimitMSGQUEUE". same_single H "LimitNICE".
  same_single H "LimitRTPRIO". same_single H "LimitRTTIME".
  same_single H "Hostname". same_single H "ResolvConf".
  same_single H "Timezone". same_single H "LinkJournal".
  same_single H "Volatile". same_single H "Bridge". same_single H "Zone".
  same_repeated H "Bind". same_repeated H "BindReadOnly".
  same_repeated H "TemporaryFileSystem". same_repeated H "Inaccessible".
  same_repeated H "VirtualEthernetExtra". same_repeated H "Port".
  unfold boolFields, stringFields, plainListFields.
  repeat apply conj; congruence.
Qed.

(** The test data and a copy with another image and interface list render
    to the same text. *)
Lemma X19_plain_fields_read_back_witness :
  boolFields testData = boolFields (withImageInterface "busybox" ["eth0"] testData) /\
  KillSignal (withImageInterface "busybox" ["eth0"] testData) = 127%N.
Proof.
  destruct (X19_plain_fields_read_back
              testData (withImageInterface "busybox" ["eth0"] testData))
    as (Hbools & Hkill & _).
  - vm_compute. repeat constructor.
  - vm_compute. repeat constructor.
  - vm_compute. reflexivity.
  - split; [exact Hbools|]. rewrite <-Hkill. reflexivity.
Defined.

(** ** The number of polls *)

Lemma waitTransfer_running h id : forall n k,
  (forall j, (k <= j < k + n)%nat -> stillActive h id j) ->
  waitTransfer n h id k = None.
Proof.
  induction n as [|n IH]; intros k Hact; [done|].
  cbn [waitTransfer]. destruct (Hact k ltac:(lia)) as (ts & -> & ->).
  apply IH. intros j Hj. apply Hact. lia.
Qed.

(** X6: the wait makes one [ListTransfers] call per answer, with no
    pause in between: when the first [n] answers show the transfer and the
    next one ends the wait, the loop is still running after [n] iterations
    and has ended, with that answer's outcome, after [n + 1]. *)
Theorem X6_wait_polls_once_per_answer (h : Host) (id : N) (n : nat)
    (r : option error) :
  (forall j, (j < n)%nat -> stillActive h id j) ->
  endsAt h id n r ->
  waitTransfer n h id 0 = None /\ waitTransfer (S n) h id 0 = Some r.
Proof.
  intros Hact Hend. split.
  - apply waitTransfer_running. intros j Hj. apply Hact. lia.
  - apply (waitTransfer_ends h id r n); [|done|lia].
    intros j Hj. apply Hact. lia.
Qed.

(** The transfer is listed twice and gone at the third call. *)
Lemma X6_wait_polls_witness :
  waitTransfer 2 (okHost "done") 1 0 = None /\
  waitTransfer 3 (okHost "done") 1 0 = Some None.
Proof.
  apply (X6_wait_polls_once_per_answer (okHost "done") 1 2 None).
  - intros j Hj. destruct j as [|[|j]]; [eexists; split; reflexivity..|lia].
  - split; reflexivity.
Defined.
